(** * JupyterLab workspace import / export (jupyterlab/labapp.py)

    A shallow embedding of [LabWorkspaceExportApp.start],
    [LabWorkspaceImportApp.start] and [LabWorkspaceImportApp._validate],
    together with the small part of the Python runtime and of the file
    system they touch, and the properties of the workspace subsystem
    proved about them. *)

From Stdlib Require Import ZArith Ascii String List Bool DecimalString.
From stdpp Require Import base option list strings gmap fin_maps.

Import ListNotations.
Local Open Scope string_scope.
Local Set Warnings "-register-all".

(** ** Values produced by [json.load] *)

(** A Python [dict] keeps its keys in insertion order, which is what
    [json.dumps] prints, hence the association list.  A float is
    identified by its [repr]. *)
Inductive json : Type :=
| JNull
| JBool (b : bool)
| JInt (n : Z)
| JFloat (repr : string)
| JStr (s : string)
| JArr (items : list json)
| JObj (members : list (string * json)).

(** [d.get(k)] on the members of a dict. *)
Fixpoint dict_get (k : string) (members : list (string * json)) : option json :=
  match members with
  | [] => None
  | (k', v) :: rest => if String.eqb k k' then Some v else dict_get k rest
  end.

Definition dict_has (k : string) (members : list (string * json)) : bool :=
  match dict_get k members with
  | Some _ => true
  | None => false
  end.

Definition is_str (k : string) (v : json) : bool :=
  match v with
  | JStr s => String.eqb k s
  | _ => false
  end.

(** [k in s] for two strings: [k] occurs somewhere in [s]. *)
Fixpoint str_contains (k s : string) : bool :=
  String.prefix k s ||
  match s with
  | EmptyString => false
  | String _ s' => str_contains k s'
  end.

(** ** Exceptions *)

(** [Exception msg] is what the source raises itself; the other
    constructors are the built-in errors of the interpreter, of [json]
    and of the operating system that can reach the handlers. *)
Inductive exn : Type :=
| Exception (msg : string)
| JSONDecodeError
| UnicodeDecodeError
| TypeError
| AttributeError
| KeyError (k : string)
| FileNotFoundError
| FileExistsError
| IsADirectoryError
| NotADirectoryError
| PermissionError.

Abbreviation result := (sum exn).

Definition raise {A} (e : exn) : result A := inl e.

#[global] Instance result_ret : MRet result := fun _ x => inr x.
#[global] Instance result_bind : MBind result := fun _ _ f m =>
  match m with
  | inl e => inl e
  | inr x => f x
  end.

(** ** The operators of Python the validator applies to a parsed value *)

(** [k in v] with [k] a string. *)
Definition py_in (k : string) (v : json) : result bool :=
  match v with
  | JObj members => mret (dict_has k members)
  | JArr items => mret (existsb (is_str k) items)
  | JStr s => mret (str_contains k s)
  | _ => raise TypeError
  end.

(** [v[k]] with [k] a string. *)
Definition py_getitem (v : json) (k : string) : result json :=
  match v with
  | JObj members =>
      match dict_get k members with
      | Some x => mret x
      | None => raise (KeyError k)
      end
  | _ => raise TypeError
  end.

(** [v != s] with [s] a string. *)
Definition py_ne (v : json) (s : string) : bool := negb (is_str s v).

(** [v.startswith(p)]: only [str] has the method. *)
Definition py_startswith (v : json) (p : string) : result bool :=
  match v with
  | JStr s => mret (String.prefix p s)
  | _ => raise AttributeError
  end.

(** ** What the program imports from other packages *)

Definition path := list string.

(** The contents of a regular file, as a text-mode [read()] sees them. *)
Inductive contents : Type :=
| Text (s : string)
| Undecodable.

Class Externals : Type := {
  (** [jupyterlab_server.slugify(raw, base)] *)
  slugify : string -> string -> string;
  (** [jupyterlab_server.WORKSPACE_EXTENSION] *)
  WORKSPACE_EXTENSION : string;
  (** [notebook.utils.url_path_join(a, b)] *)
  ujoin : string -> string -> string;
  (** [json.loads]; [None] is a [JSONDecodeError] *)
  json_loads : string -> option json;
  (** [json.dumps] *)
  json_dumps : json -> string;
  (** [os.path.abspath], as the components of the absolute path *)
  abspath : string -> path;
  (** [str(e)] for a built-in error *)
  describe : exn -> string;
  (** [str(v)] for a value that is not a string *)
  py_repr : json -> string
}.

(** [str(v)], as [%s] formats it. *)
Definition py_str `{Externals} (v : json) : string :=
  match v with
  | JStr s => s
  | _ => py_repr v
  end.

(** [str(e)] *)
Definition exn_str `{Externals} (e : exn) : string :=
  match e with
  | Exception msg => msg
  | _ => describe e
  end.

(** ** Configuration read by [load_config] *)

Record config : Type := {
  base_url : string;
  workspaces_dir : path;
  page_url : string;
  workspaces_url : string
}.

(** ** Open files and the messages of the validator *)

(** An open file in text mode. *)
Record file_object : Type := { fid_body : contents }.

(** [fid.read()] *)
Definition fid_read (fid : file_object) : result string :=
  match fid_body fid with
  | Text s => mret s
  | Undecodable => raise UnicodeDecodeError
  end.

(** [json.load(fid)] *)
Definition json_load `{Externals} (fid : file_object) : result json :=
  s ← fid_read fid;
  match json_loads s with
  | Some v => mret v
  | None => raise JSONDecodeError
  end.

Definition data_missing : string := "The `data` field is missing.".
Definition metadata_missing : string := "The `metadata` field is missing.".
Definition id_missing : string := "The `id` field is missing in `metadata`.".
Definition id_mismatch (id : string) : string :=
  id ++ " does not match page_url or start with workspaces_url.".

(** [error % id] *)
Definition format_mismatch `{Externals} (id : json) : string := id_mismatch (py_str id).

(** [workspace['metadata']['id']] *)
Definition metadata_id (workspace : json) : result json :=
  metadata ← py_getitem workspace "metadata";
  py_getitem metadata "id".

Definition ends_with_slash (s : string) : bool :=
  match rev (list_ascii_of_string s) with
  | c :: _ => Ascii.eqb c "/"
  | [] => false
  end.

(** The path prefix of the specification, as opposed to
    [str.startswith]: [s] is [base], or continues it after a slash. *)
Definition path_prefix (base s : string) : bool :=
  String.eqb s base ||
  String.prefix (if ends_with_slash base then base else base ++ "/") s.

(** ** The file system and the process *)

(** A node of the file tree.  [readable] is the read permission of a
    regular file: [open] for reading fails without it.  Other permission
    failures and a full disk are outside the model. *)
Inductive node : Type :=
| Dir
| File (readable : bool) (body : contents).

Record world : Type := {
  fs : gmap path node;
  stdout : list string
}.

(** How a statement can leave the normal flow: [sys.exit], which no
    [except Exception] handler catches, or an exception. *)
Inductive signal : Type :=
| SysExit (status : Z)
| Raised (e : exn).

Definition prog (A : Type) : Type := world -> (signal + A) * world.

#[global] Instance prog_ret : MRet prog := fun _ x w => (inr x, w).
#[global] Instance prog_bind : MBind prog := fun _ _ f m w =>
  match m w with
  | (inl s, w') => (inl s, w')
  | (inr x, w') => f x w'
  end.

Definition throw {A} (e : exn) : prog A := fun w => (inl (Raised e), w).

Definition sys_exit {A} (status : Z) : prog A := fun w => (inl (SysExit status), w).

Definition lift {A} (r : result A) : prog A :=
  match r with
  | inl e => throw e
  | inr x => mret x
  end.

(** [try: body except Exception as e: handler e] *)
Definition try_except {A} (body : prog A) (handler : exn -> prog A) : prog A :=
  fun w =>
    match body w with
    | (inl (Raised e), w') => handler e w'
    | r => r
    end.

Definition print (s : string) : prog unit :=
  fun w => (inr tt, {| fs := fs w; stdout := (stdout w ++ [s])%list |}).

(** The status the process ends with. *)
Definition exit_status {A} (r : signal + A) : Z :=
  match r with
  | inr _ => 0
  | inl (SysExit status) => status
  | inl (Raised _) => 1
  end.

(** The root always exists. *)
Definition stat (m : gmap path node) (p : path) : option node :=
  match p with
  | [] => Some Dir
  | _ => m !! p
  end.

Definition parent (p : path) : path := removelast p.

#[global] Instance contents_eq_dec : EqDecision contents.
Proof. solve_decision. Defined.

#[global] Instance node_eq_dec : EqDecision node.
Proof. solve_decision. Defined.

(** A file tree: whatever exists lies in a directory. *)
Definition tree (m : gmap path node) : Prop :=
  map_Forall (λ q _, stat m (parent q) = Some Dir) m.

#[global] Instance tree_dec m : Decision (tree m).
Proof. unfold tree. apply _. Defined.

Definition set_node (p : path) (n : node) (w : world) : world :=
  {| fs := <[p := n]> (fs w); stdout := stdout w |}.

Definition os_path_exists (p : path) : prog bool :=
  fun w => (inr (match stat (fs w) p with Some _ => true | None => false end), w).

(** [os.path.join(directory, name)] for a [name] that is one component. *)
Definition os_path_join (directory : path) (name : string) : path :=
  (directory ++ [name])%list.

Fixpoint path_str_aux (p : path) : string :=
  match p with
  | [] => ""
  | c :: rest => "/" ++ c ++ path_str_aux rest
  end.

Definition path_str (p : path) : string :=
  match p with
  | [] => "/"
  | _ => path_str_aux p
  end.

(** [open(p)] *)
Definition open_read (p : path) : prog file_object :=
  fun w =>
    match stat (fs w) p with
    | Some (File true body) => (inr {| fid_body := body |}, w)
    | Some (File false _) => (inl (Raised PermissionError), w)
    | Some Dir => (inl (Raised IsADirectoryError), w)
    | None => (inl (Raised FileNotFoundError), w)
    end.

(** [open(p, 'w')]: creates the file, or empties the one that is there. *)
Definition open_write (p : path) : prog path :=
  fun w =>
    match stat (fs w) p with
    | Some Dir => (inl (Raised IsADirectoryError), w)
    | Some (File r _) => (inr p, set_node p (File r (Text "")) w)
    | None =>
        match stat (fs w) (parent p) with
        | Some Dir => (inr p, set_node p (File true (Text "")) w)
        | Some (File _ _) => (inl (Raised NotADirectoryError), w)
        | None => (inl (Raised FileNotFoundError), w)
        end
    end.

(** [fid.write(s)] on a file opened for writing. *)
Definition fid_write (fid : path) (s : string) : prog unit :=
  fun w =>
    match fs w !! fid with
    | Some (File r (Text old)) => (inr tt, set_node fid (File r (Text (old ++ s))) w)
    | _ => (inr tt, w)
    end.

(** [os.mkdir(p)] *)
Definition os_mkdir (p : path) : prog unit :=
  fun w =>
    match stat (fs w) p with
    | Some _ => (inl (Raised FileExistsError), w)
    | None =>
        match stat (fs w) (parent p) with
        | Some Dir => (inr tt, set_node p Dir w)
        | Some (File _ _) => (inl (Raised NotADirectoryError), w)
        | None => (inl (Raised FileNotFoundError), w)
        end
    end.

(** [os.makedirs(name)], by recursion on the path read from its last
    component: [head, tail = path.split(name)]. *)
Fixpoint makedirs_rev (rname : list string) : prog unit :=
  match rname with
  | [] => os_mkdir []
  | tail :: rhead =>
      head_exists ← os_path_exists (rev rhead);
      (if negb head_exists
       then try_except (makedirs_rev rhead)
              (fun e => match e with
                        | FileExistsError => mret tt
                        | _ => throw e
                        end)
       else mret tt);;
      os_mkdir (rev rhead ++ [tail])%list
  end.

Definition os_makedirs (name : path) : prog unit := makedirs_rev (rev name).

(** ** The two commands *)

Definition newline : string := String "010" "".

Section Resolution.
Context `{Externals} (cfg : config).

(** [dict(data=dict(), metadata=dict(id=raw))] *)
Definition empty_workspace (raw : string) : json :=
  JObj [("data", JObj []); ("metadata", JObj [("id", JStr raw)])].

(** The identifier an export resolves its arguments to. *)
Definition export_raw (extra_args : list string) : string :=
  match extra_args with
  | [] => page_url cfg
  | name :: _ => ujoin (workspaces_url cfg) name
  end.

(** [os.path.join(directory, slugify(raw, base_url) + WORKSPACE_EXTENSION)] *)
Definition workspace_path_of (raw : string) : path :=
  os_path_join (workspaces_dir cfg)
    (slugify raw (base_url cfg) ++ WORKSPACE_EXTENSION).

(** [slugify(id, base_url)]: [slugify] needs a string. *)
Definition slugify_id (id : json) : result string :=
  match id with
  | JStr s => mret (slugify s (base_url cfg))
  | _ => raise AttributeError
  end.

End Resolution.

Module LabWorkspaceExportApp.
Section Methods.
Context `{Externals} (cfg : config).

(** [LabWorkspaceExportApp.start] *)
Definition start (extra_args : list string) : prog unit :=
  if (1 <? length extra_args)%nat
  then print "Too many arguments were provided for workspace export.";;
       sys_exit 1
  else
    let raw := export_raw cfg extra_args in
    let workspace_path := workspace_path_of cfg raw in
    found ← os_path_exists workspace_path;
    if found : bool
    then
      fid ← open_read workspace_path;
      try_except
        (s ← lift (fid_read fid); print s)
        (fun e => print (json_dumps (empty_workspace raw)))
    else print (json_dumps (empty_workspace raw)).

End Methods.
End LabWorkspaceExportApp.

Module LabWorkspaceImportApp.
Section Methods.
Context `{Externals} (cfg : config).

(** [LabWorkspaceImportApp._validate] *)
Definition _validate (data : file_object) (page_url workspaces_url : string)
  : result json :=
  workspace ← json_load data;
  has_data ← py_in "data" workspace;
  if negb has_data then raise (Exception data_missing) else
  has_metadata ← py_in "metadata" workspace;
  if negb has_metadata then raise (Exception metadata_missing) else
  metadata ← py_getitem workspace "metadata";
  has_id ← py_in "id" metadata;
  if negb has_id then raise (Exception id_missing) else
  metadata ← py_getitem workspace "metadata";
  id ← py_getitem metadata "id";
  mismatch ← (if py_ne id page_url
              then starts ← py_startswith id workspaces_url; mret (negb starts)
              else mret false);
  if mismatch : bool then raise (Exception (format_mismatch id)) else
  mret workspace.

(** [LabWorkspaceImportApp.start] *)
Definition start (extra_args : list string) : prog unit :=
  match extra_args with
  | [file_name] =>
      let file_path := abspath file_name in
      found ← os_path_exists file_path;
      (if negb found
       then print (file_name ++ " does not exist.");; sys_exit 1
       else mret tt);;
      fid ← open_read file_path;
      workspace ← try_except
        (lift (_validate fid (page_url cfg) (workspaces_url cfg)))
        (fun e =>
           print (file_name ++ " is not a valid workspace:" ++ newline ++ exn_str e);;
           sys_exit 1);
      dir_exists ← os_path_exists (workspaces_dir cfg);
      (if negb dir_exists
       then try_except (os_makedirs (workspaces_dir cfg))
              (fun e =>
                 print ("Workspaces directory could not be created:"
                        ++ newline ++ exn_str e);;
                 sys_exit 1)
       else mret tt);;
      id ← lift (metadata_id workspace);
      slug ← lift (slugify_id cfg id);
      let workspace_path := os_path_join (workspaces_dir cfg) (slug ++ WORKSPACE_EXTENSION) in
      out ← open_write workspace_path;
      fid_write out (json_dumps workspace);;
      print ("Saved workspace: " ++ path_str workspace_path)
  | _ =>
      print "One argument is required for workspace import.";;
      sys_exit 1
  end.

End Methods.
End LabWorkspaceImportApp.

Abbreviation _validate := LabWorkspaceImportApp._validate.
Abbreviation import_start := LabWorkspaceImportApp.start.
Abbreviation export_start := LabWorkspaceExportApp.start.

(** ** Definitions used to state the properties *)

Section Statements.
Context `{Externals} (cfg : config).

(** *** The rules of the validator, one at a time *)

Inductive rule : Type :=
| WellFormedJson
| HasData
| HasMetadata
| HasId
| IdentityMatches.

(** The place of a rule in the order of priority. *)
Definition rule_index (r : rule) : nat :=
  match r with
  | WellFormedJson => 0
  | HasData => 1
  | HasMetadata => 2
  | HasId => 3
  | IdentityMatches => 4
  end.

(** One rule applied to a parsed document, whatever the other rules
    say of it: [inr tt] when the document satisfies the rule, the
    failure the rule reports otherwise. *)
Definition rule_check (r : rule) (workspace : json)
    (page_url workspaces_url : string) : result unit :=
  match r with
  | WellFormedJson => mret tt
  | HasData =>
      found ← py_in "data" workspace;
      if found : bool then mret tt else raise (Exception data_missing)
  | HasMetadata =>
      found ← py_in "metadata" workspace;
      if found : bool then mret tt else raise (Exception metadata_missing)
  | HasId =>
      metadata ← py_getitem workspace "metadata";
      found ← py_in "id" metadata;
      if found : bool then mret tt else raise (Exception id_missing)
  | IdentityMatches =>
      id ← metadata_id workspace;
      if py_ne id page_url
      then starts ← py_startswith id workspaces_url;
           if starts : bool then mret tt else raise (Exception (format_mismatch id))
      else mret tt
  end.

(** One rule applied to a file: a file that does not parse satisfies
    no rule. *)
Definition verdict (r : rule) (data : file_object)
    (page_url workspaces_url : string) : result unit :=
  workspace ← json_load data;
  rule_check r workspace page_url workspaces_url.

(** What an accepted document looks like. *)
Definition accepted (w : json) (page_url workspaces_url : string) : Prop :=
  ∃ members d meta s,
    w = JObj members ∧
    dict_get "data" members = Some d ∧
    dict_get "metadata" members = Some (JObj meta) ∧
    dict_get "id" meta = Some (JStr s) ∧
    (s = page_url ∨ String.prefix workspaces_url s = true).

(** The statements of [LabWorkspaceImportApp.start] that follow
    validation, from the test on the workspaces directory to the last
    [print]. *)
Definition store_workspace (workspace : json) : prog unit :=
  dir_exists ← os_path_exists (workspaces_dir cfg);
  (if negb dir_exists
   then try_except (os_makedirs (workspaces_dir cfg))
          (fun e =>
             print ("Workspaces directory could not be created:"
                    ++ newline ++ exn_str e);;
             sys_exit 1)
   else mret tt);;
  id ← lift (metadata_id workspace);
  slug ← lift (slugify_id cfg id);
  let workspace_path := os_path_join (workspaces_dir cfg) (slug ++ WORKSPACE_EXTENSION) in
  out ← open_write workspace_path;
  fid_write out (json_dumps workspace);;
  print ("Saved workspace: " ++ path_str workspace_path).

(** [print(s)] as a change of the world. *)
Definition printed (s : string) (w : world) : world :=
  {| fs := fs w; stdout := (stdout w ++ [s])%list |}.

(** The world once [workspace], whose id is [id], is saved in a file
    with read permission [r]. *)
Definition stored (workspace : json) (id : string) (r : bool) (w : world) : world :=
  printed ("Saved workspace: " ++ path_str (workspace_path_of cfg id))
    (set_node (workspace_path_of cfg id) (File r (Text (json_dumps workspace))) w).

(** What opening and writing the workspace file amounts to. *)
Definition write_out (workspace : json) (id : string) (w : world)
  : (signal + unit) * world :=
  match stat (fs w) (workspace_path_of cfg id) with
  | Some Dir => (inl (Raised IsADirectoryError), w)
  | Some (File r _) => (inr tt, stored workspace id r w)
  | None =>
      match stat (fs w) (workspaces_dir cfg) with
      | Some Dir => (inr tt, stored workspace id true w)
      | Some (File _ _) => (inl (Raised NotADirectoryError), w)
      | None => (inl (Raised FileNotFoundError), w)
      end
  end.

(** The read permission a file written at [p] ends up with: the one
    it had, or that of a new file. *)
Definition readable_at (m : gmap path node) (p : path) : bool :=
  match stat m p with
  | Some (File r _) => r
  | _ => true
  end.

End Statements.

(** ** A small instance of the imported packages

    Enough of [json], [url_path_join] and [os.path] to run the model on
    concrete inputs: JSON without floats and without [\u] escapes, paths
    without [.] and [..]. *)

Module Demo.
Local Open Scope char_scope.

Definition dquote : ascii := "034".

(** Writing [']  for the double quote keeps JSON texts readable. *)
Definition dq (s : string) : string :=
  string_of_list_ascii
    (map (fun c => if Ascii.eqb c "'" then dquote else c) (list_ascii_of_string s)).

Definition escape_char (c : ascii) : list ascii :=
  if Ascii.eqb c dquote then ["\"; dquote]
  else if Ascii.eqb c "\" then ["\"; "\"]
  else if Ascii.eqb c "010" then ["\"; "n"]
  else if Ascii.eqb c "013" then ["\"; "r"]
  else if Ascii.eqb c "009" then ["\"; "t"]
  else [c].

Definition quote_string (s : string) : string :=
  string_of_list_ascii
    (dquote :: flat_map escape_char (list_ascii_of_string s) ++ [dquote])%list.

Fixpoint join (sep : string) (l : list string) : string :=
  match l with
  | [] => ""
  | [x] => x
  | x :: rest => (x ++ sep ++ join sep rest)%string
  end.

Fixpoint dumps (v : json) : string :=
  match v with
  | JNull => "null"
  | JBool true => "true"
  | JBool false => "false"
  | JInt n => NilZero.string_of_int (Z.to_int n)
  | JFloat r => r
  | JStr s => quote_string s
  | JArr items => ("[" ++ join ", " (map dumps items) ++ "]")%string
  | JObj members =>
      ("{" ++ join ", "
                (map (fun kv => quote_string (fst kv) ++ ": " ++ dumps (snd kv))
                     members) ++ "}")%string
  end.

Definition is_ws (c : ascii) : bool :=
  Ascii.eqb c " " || Ascii.eqb c "009" || Ascii.eqb c "010" || Ascii.eqb c "013".

Fixpoint skip_ws (l : list ascii) : list ascii :=
  match l with
  | c :: rest => if is_ws c then skip_ws rest else l
  | [] => []
  end.

Definition unescape (c : ascii) : option ascii :=
  if Ascii.eqb c "n" then Some "010"
  else if Ascii.eqb c "r" then Some "013"
  else if Ascii.eqb c "t" then Some "009"
  else if Ascii.eqb c dquote || Ascii.eqb c "\" || Ascii.eqb c "/" then Some c
  else None.

(** The rest of a string literal, after its opening quote. *)
Fixpoint parse_string (l acc : list ascii) : option (string * list ascii) :=
  match l with
  | [] => None
  | c :: rest =>
      if Ascii.eqb c dquote then Some (string_of_list_ascii (rev acc), rest)
      else if Ascii.eqb c "\" then
        match rest with
        | e :: rest' =>
            match unescape e with
            | Some x => parse_string rest' (x :: acc)
            | None => None
            end
        | [] => None
        end
      else parse_string rest (c :: acc)
  end.

Definition is_digit (c : ascii) : bool :=
  (48 <=? nat_of_ascii c)%nat && (nat_of_ascii c <=? 57)%nat.

Fixpoint digits (l : list ascii) (acc : Z) : Z * list ascii :=
  match l with
  | c :: rest =>
      if is_digit c
      then digits rest (10 * acc + Z.of_nat (nat_of_ascii c - 48))%Z
      else (acc, l)
  | [] => (acc, [])
  end.

(** An integer literal; fractions and exponents are not read. *)
Definition parse_int (l : list ascii) : option (json * list ascii) :=
  let '(neg, l') := match l with
                    | "-" :: rest => (true, rest)
                    | _ => (false, l)
                    end in
  match l' with
  | c :: _ =>
      if is_digit c then
        let '(n, rest) := digits l' 0%Z in
        match rest with
        | "." :: _ | "e" :: _ | "E" :: _ => None
        | _ => Some (JInt (if neg then - n else n)%Z, rest)
        end
      else None
  | [] => None
  end.

(** [d[k] = v] *)
Fixpoint dict_set (k : string) (v : json) (members : list (string * json))
  : list (string * json) :=
  match members with
  | [] => [(k, v)]
  | (k', v') :: rest =>
      if String.eqb k k' then (k, v) :: rest else (k', v') :: dict_set k v rest
  end.

Section Parser.
Variable parse_value : list ascii -> option (json * list ascii).

Fixpoint parse_items (n : nat) (l : list ascii) (acc : list json)
  : option (json * list ascii) :=
  match n with
  | O => None
  | S n' =>
      match parse_value l with
      | Some (v, rest) =>
          match skip_ws rest with
          | "," :: rest' => parse_items n' rest' (v :: acc)
          | "]" :: rest' => Some (JArr (rev (v :: acc)), rest')
          | _ => None
          end
      | None => None
      end
  end.

Fixpoint parse_members (n : nat) (l : list ascii) (acc : list (string * json))
  : option (json * list ascii) :=
  match n with
  | O => None
  | S n' =>
      match skip_ws l with
      | c :: rest =>
          if Ascii.eqb c dquote then
            match parse_string rest [] with
            | Some (k, rest1) =>
                match skip_ws rest1 with
                | ":" :: rest2 =>
                    match parse_value rest2 with
                    | Some (v, rest3) =>
                        match skip_ws rest3 with
                        | "," :: rest4 => parse_members n' rest4 (dict_set k v acc)
                        | "}" :: rest4 => Some (JObj (dict_set k v acc), rest4)
                        | _ => None
                        end
                    | None => None
                    end
                | _ => None
                end
            | None => None
            end
          else None
      | [] => None
      end
  end.
End Parser.

Fixpoint parse_value (fuel : nat) (l : list ascii) : option (json * list ascii) :=
  match fuel with
  | O => None
  | S fuel' =>
      match skip_ws l with
      | "n" :: "u" :: "l" :: "l" :: rest => Some (JNull, rest)
      | "t" :: "r" :: "u" :: "e" :: rest => Some (JBool true, rest)
      | "f" :: "a" :: "l" :: "s" :: "e" :: rest => Some (JBool false, rest)
      | "[" :: rest =>
          match skip_ws rest with
          | "]" :: rest' => Some (JArr [], rest')
          | _ => parse_items (parse_value fuel') (length rest) rest []
          end
      | "{" :: rest =>
          match skip_ws rest with
          | "}" :: rest' => Some (JObj [], rest')
          | _ => parse_members (parse_value fuel') (length rest) rest []
          end
      | c :: rest =>
          if Ascii.eqb c dquote then
            match parse_string rest [] with
            | Some (s, rest') => Some (JStr s, rest')
            | None => None
            end
          else parse_int (c :: rest)
      | [] => None
      end
  end.

Definition loads (s : string) : option json :=
  let l := list_ascii_of_string s in
  match parse_value (S (length l)) l with
  | Some (v, rest) =>
      match skip_ws rest with
      | [] => Some v
      | _ => None
      end
  | None => None
  end.

Definition starts_with_slash (l : list ascii) : bool :=
  match l with
  | "/" :: _ => true
  | _ => false
  end.

Fixpoint lstrip (l : list ascii) : list ascii :=
  match l with
  | "/" :: rest => lstrip rest
  | _ => l
  end.

(** [s.strip('/')] *)
Definition strip (l : list ascii) : list ascii := rev (lstrip (rev (lstrip l))).

(** [notebook.utils.url_path_join] applied to two pieces. *)
Definition url_path_join (a b : string) : string :=
  let la := list_ascii_of_string a in
  let lb := list_ascii_of_string b in
  let initial := starts_with_slash la in
  let final := starts_with_slash (rev lb) in
  let stripped := map string_of_list_ascii [strip la; strip lb] in
  let result := join "/" (filter (fun piece => negb (String.eqb piece "")) stripped) in
  let result := if initial then ("/" ++ result)%string else result in
  let result := if final then (result ++ "/")%string else result in
  if String.eqb result "//" then "/"%string else result.

Definition emit (cur : list ascii) : list string :=
  match cur with
  | [] => []
  | _ => [string_of_list_ascii (rev cur)]
  end.

Fixpoint components (l cur : list ascii) : list string :=
  match l with
  | [] => emit cur
  | c :: rest =>
      if Ascii.eqb c "/" then (emit cur ++ components rest [])%list
      else components rest (c :: cur)
  end.

(** [os.path.abspath] in a process whose working directory is the root. *)
Definition abspath_from_root (name : string) : path :=
  components (list_ascii_of_string name) [].

Definition is_word (c : ascii) : bool :=
  let n := nat_of_ascii c in
  ((48 <=? n) && (n <=? 57) || (65 <=? n) && (n <=? 90)
   || (97 <=? n) && (n <=? 122) || (n =? 95) || (n =? 45))%nat.

(** A stand-in for [slugify]: the word characters of [raw]; the real
    one also strips the part shared with [base] and appends a digest. *)
Definition word_slug (raw base : string) : string :=
  string_of_list_ascii (filter is_word (list_ascii_of_string raw)).

Local Close Scope char_scope.

Definition class_name (e : exn) : string :=
  match e with
  | Exception msg => msg
  | JSONDecodeError => "JSONDecodeError"
  | UnicodeDecodeError => "UnicodeDecodeError"
  | TypeError => "TypeError"
  | AttributeError => "AttributeError"
  | KeyError k => k
  | FileNotFoundError => "FileNotFoundError"
  | FileExistsError => "FileExistsError"
  | IsADirectoryError => "IsADirectoryError"
  | NotADirectoryError => "NotADirectoryError"
  | PermissionError => "PermissionError"
  end.

Definition externals : Externals := {|
  slugify := word_slug;
  WORKSPACE_EXTENSION := ".jupyterlab-workspace";
  ujoin := url_path_join;
  json_loads := loads;
  json_dumps := dumps;
  abspath := abspath_from_root;
  describe := class_name;
  py_repr := dumps
|}.

(** The configuration of a server at the default location. *)
Definition lab : config := {|
  base_url := "/";
  workspaces_dir := ["home"; "lab"; "workspaces"];
  page_url := "/lab";
  workspaces_url := "/lab/workspaces"
|}.

(** The default workspace, with a key of its own next to the two
    required ones. *)
Definition root_text : string :=
  dq "{'data': {'layout': 1}, 'metadata': {'id': '/lab'}, 'extra': [1, 2]}".

Definition root_doc : json :=
  JObj [("data", JObj [("layout", JInt 1)]);
        ("metadata", JObj [("id", JStr "/lab")]);
        ("extra", JArr [JInt 1; JInt 2])].

(** Another document for the same id. *)
Definition later_text : string :=
  dq "{'data': {'layout': 2}, 'metadata': {'id': '/lab'}}".

Definition later_doc : json :=
  JObj [("data", JObj [("layout", JInt 2)]);
        ("metadata", JObj [("id", JStr "/lab")])].

(** An id that continues [/lab/workspaces] without a slash. *)
Definition outside_text : string :=
  dq "{'data': {}, 'metadata': {'id': '/lab/workspacesfoo'}}".

Definition outside_doc : json :=
  JObj [("data", JObj []);
        ("metadata", JObj [("id", JStr "/lab/workspacesfoo")])].

(** An id that is neither the page URL nor under the workspaces URL. *)
Definition stray_text : string :=
  dq "{'data': {}, 'metadata': {'id': '/elsewhere'}}".

(** A document whose [data] is a number. *)
Definition scalar_text : string :=
  dq "{'data': 5, 'metadata': {'id': '/lab/workspaces/foo'}}".

Definition scalar_members : list (string * json) :=
  [("data", JInt 5); ("metadata", JObj [("id", JStr "/lab/workspaces/foo")])].

Definition sources : gmap path node :=
  {[ ["tmp"] := Dir;
     ["tmp"; "root.json"] := File true (Text root_text);
     ["tmp"; "later.json"] := File true (Text later_text);
     ["tmp"; "scalar.json"] := File true (Text scalar_text) ]}.

(** A machine on which the workspaces directory was never made. *)
Definition fresh : world := {| fs := sources; stdout := [] |}.

(** The same machine with an empty workspaces directory. *)
Definition settled : world :=
  {| fs := <[ ["home"] := Dir ]>
             (<[ ["home"; "lab"] := Dir ]>
                (<[ ["home"; "lab"; "workspaces"] := Dir ]> sources));
     stdout := [] |}.

Definition root_workspace_file : path :=
  ["home"; "lab"; "workspaces"; "lab.jupyterlab-workspace"].

(** The default workspace file holds something that is not JSON. *)
Definition corrupt : world :=
  {| fs := <[ root_workspace_file := File true (Text "not json") ]> (fs settled);
     stdout := [] |}.

(** A regular file sits where the home directory should be. *)
Definition walled : world :=
  {| fs := <[ ["home"] := File true (Text "") ]> sources; stdout := [] |}.

(** The default workspace file is there without read permission. *)
Definition locked : world :=
  {| fs := <[ root_workspace_file := File false (Text root_text) ]> (fs settled);
     stdout := [] |}.

(** The default workspace file holds bytes that do not decode. *)
Definition garbled : world :=
  {| fs := <[ root_workspace_file := File true Undecodable ]> (fs settled);
     stdout := [] |}.
End Demo.

(** ** The rest of the module: version string and [LabApp.init_webapp] *)

(** The module-level [version]: the package version, or both versions
    when [get_app_version()] returns another one. *)
Definition version (__version__ app_version : string) : string :=
  if negb (String.eqb __version__ app_version)
  then __version__ ++ " (dev), " ++ app_version ++ " (app)"
  else __version__.

(** [v[k] = x] with [k] a string: only a [dict] takes it. *)
Definition py_setitem (v : json) (k : string) (x : json) : result json :=
  match v with
  | JObj members => mret (JObj (Demo.dict_set k x members))
  | _ => raise TypeError
  end.

Module LabApp.

(** [LabApp.init_webapp], from the statement after the call of the
    parent class on: [settings] is the dict [self.web_app.settings],
    [quit_button] the attribute of that name when the application has
    one.  The dict of the page configuration is changed in place, so
    it stays where it is in [settings]. *)
Definition init_webapp (quit_button : option json) (settings : list (string * json))
  : result (list (string * json)) :=
  let settings :=
    if negb (dict_has "page_config_data" settings)
    then Demo.dict_set "page_config_data" (JObj []) settings
    else settings in
  page_config_data ← py_getitem (JObj settings) "page_config_data";
  page_config_data ← py_setitem page_config_data "quit_button"
                       (default (JBool false) quit_button);
  mret (Demo.dict_set "page_config_data" page_config_data settings).

End LabApp.

(** ** More concrete inputs *)

Module Samples.
Import Demo.

(** A document of a named workspace. *)
Definition foo_text : string :=
  dq "{'data': {'tabs': ['a', 'b']}, 'metadata': {'id': '/lab/workspaces/foo'}}".

Definition foo_doc : json :=
  JObj [("data", JObj [("tabs", JArr [JStr "a"; JStr "b"])]);
        ("metadata", JObj [("id", JStr "/lab/workspaces/foo")])].

(** A list that holds the two names the validator looks for. *)
Definition list_text : string := dq "['data', 'metadata']".

(** A document whose [metadata] is text with [id] in it. *)
Definition text_metadata : string := dq "{'data': {}, 'metadata': 'no id here'}".

(** The machine of [settled] with the document of the named workspace. *)
Definition desk : world :=
  {| fs := <[ ["tmp"; "foo.json"] := File true (Text foo_text) ]> (fs settled);
     stdout := [] |}.

(** A regular file sits where the workspaces directory should be. *)
Definition filed : world :=
  {| fs := <[ ["home"] := Dir ]>
             (<[ ["home"; "lab"] := Dir ]>
                (<[ ["home"; "lab"; "workspaces"] := File true (Text "") ]> sources));
     stdout := [] |}.

(** A directory sits where the default workspace file should be. *)
Definition nested : world :=
  {| fs := <[ root_workspace_file := Dir ]> (fs settled); stdout := [] |}.

(** A directory sits where the source file should be. *)
Definition folder : world :=
  {| fs := <[ ["tmp"; "dir.json"] := Dir ]>
             (<[ ["tmp"; "secret.json"] := File false (Text root_text) ]> (fs settled));
     stdout := [] |}.

(** Settings with a page configuration and a handler table. *)
Definition tornado_settings : list (string * json) :=
  [("base_url", JStr "/");
   ("page_config_data", JObj [("token", JStr "abc"); ("quit_button", JBool true)]);
   ("xsrf_cookies", JBool true)].

End Samples.

(** ** Facts about the validator *)

(** Closes a goal whose premises are equations between results. *)
Ltac settle :=
  unfold mret, result_ret, raise; intros; simplify_eq; done.

Section ValidateFacts.
Context `{Externals}.

Lemma dict_has_true k members :
  dict_has k members = true ↔ ∃ v, dict_get k members = Some v.
Proof.
  unfold dict_has. destruct (dict_get k members); split; eauto; try done.
  intros [v ?]; done.
Qed.

Lemma py_getitem_Some v k x :
  py_getitem v k = inr x ↔ ∃ members, v = JObj members ∧ dict_get k members = Some x.
Proof.
  split.
  - destruct v; simpl; try done.
    destruct (dict_get k members) eqn:E; simpl; try done.
    intros [= ->]. eauto.
  - intros (members & -> & E). simpl. by rewrite E.
Qed.

Lemma validate_accepted_iff fid pu wu w :
  _validate fid pu wu = inr w ↔ json_load fid = inr w ∧ accepted w pu wu.
Proof.
  unfold _validate. destruct (json_load fid) as [e|v]; simpl.
  { split; [done | intros [? _]; done]. }
  split.
  - destruct (py_in "data" v) as [e|[]] eqn:Hd; simpl; try done.
    destruct (py_in "metadata" v) as [e|[]] eqn:Hm; simpl; try done.
    destruct (py_getitem v "metadata") as [e|meta] eqn:Hg; simpl; try done.
    destruct (py_in "id" meta) as [e|[]] eqn:Hi; simpl; try done.
    destruct (py_getitem meta "id") as [e|id] eqn:Hgi; simpl; try done.
    apply py_getitem_Some in Hg as (members & -> & Hmeta).
    apply py_getitem_Some in Hgi as (mm & -> & Hid).
    simpl in Hd. injection Hd as Hd. apply dict_has_true in Hd as [d Hd].
    unfold py_ne. destruct id; simpl; try done.
    + destruct (String.eqb pu s) eqn:Heq; simpl.
      * intros [= <-]. apply String.eqb_eq in Heq as ->.
        split; [done|]. exists members, d, mm, s. eauto 10.
      * destruct (String.prefix wu s) eqn:Hp; simpl; try done.
        intros [= <-]. split; [done|]. exists members, d, mm, s. eauto 10.
  - intros [[= ->] (members & d & meta & s & -> & Hd & Hm & Hi & Hs)].
    simpl. unfold dict_has. rewrite Hd, Hm. simpl.
    unfold dict_has. rewrite Hi. simpl.
    unfold py_ne. simpl. destruct Hs as [-> | Hp].
    + rewrite String.eqb_refl. reflexivity.
    + destruct (String.eqb pu s); simpl; [done|]. rewrite Hp. reflexivity.
Qed.

(** On a JSON object the rules are the presence of the keys. *)
Lemma rule_check_keys members pu wu :
  rule_check HasData (JObj members) pu wu
  = (if dict_has "data" members then inr tt else inl (Exception data_missing))
  ∧ rule_check HasMetadata (JObj members) pu wu
    = (if dict_has "metadata" members then inr tt else inl (Exception metadata_missing)).
Proof.
  split; simpl; [by destruct (dict_has "data" members)
                | by destruct (dict_has "metadata" members)].
Qed.

Lemma rule_check_id members meta pu wu :
  dict_get "metadata" members = Some (JObj meta) →
  rule_check HasId (JObj members) pu wu
  = (if dict_has "id" meta then inr tt else inl (Exception id_missing)).
Proof.
  intros Hm. simpl. rewrite Hm. simpl. by destruct (dict_has "id" meta).
Qed.

Lemma rule_check_identity members meta id pu wu :
  dict_get "metadata" members = Some (JObj meta) →
  dict_get "id" meta = Some (JStr id) →
  rule_check IdentityMatches (JObj members) pu wu
  = (if String.eqb pu id || String.prefix wu id
     then inr tt else inl (Exception (id_mismatch id))).
Proof.
  intros Hm Hi. unfold rule_check, metadata_id. simpl. rewrite Hm. simpl.
  rewrite Hi. simpl. unfold py_ne. simpl.
  destruct (String.eqb pu id); simpl; [done|].
  by destruct (String.prefix wu id).
Qed.

(** A file that satisfies every rule is accepted as it was parsed. *)
Lemma validate_all_rules_hold fid pu wu :
  (∀ r, verdict r fid pu wu = inr tt) →
  ∃ w, json_load fid = inr w ∧ _validate fid pu wu = inr w.
Proof.
  intros Hall.
  pose proof (Hall HasData) as Hdata. pose proof (Hall HasMetadata) as Hmeta.
  pose proof (Hall HasId) as Hid. pose proof (Hall IdentityMatches) as Hident.
  revert Hdata Hmeta Hid Hident. unfold verdict, _validate, metadata_id.
  destruct (json_load fid) as [e|w]; simpl; [done|]. intros Hdata Hmeta Hid Hident.
  exists w. split; [done|]. revert Hdata Hmeta Hid Hident.
  unfold metadata_id. simpl.
  destruct (py_in "data" w) as [?|[]]; simpl; try settle.
  destruct (py_in "metadata" w) as [?|[]]; simpl; try settle.
  destruct (py_getitem w "metadata") as [?|meta]; simpl; try settle.
  destruct (py_in "id" meta) as [?|[]]; simpl; try settle.
  destruct (py_getitem meta "id") as [?|id]; simpl; try settle.
  destruct (py_ne id pu); simpl; try settle.
  destruct (py_startswith id wu) as [?|[]]; simpl; settle.
Qed.
End ValidateFacts.

(** ** Running the commands *)

Local Open Scope list_scope.

Section Runs.
Context `{Externals} (cfg : config).

Lemma import_start_usage args w :
  length args ≠ 1%nat →
  import_start cfg args w =
    (inl (SysExit 1), printed "One argument is required for workspace import." w).
Proof.
  destruct args as [|a [|b rest]]; simpl; intros Hlen; try done.
Qed.

Lemma import_start_unfold file_name w :
  import_start cfg [file_name] w =
    match stat (fs w) (abspath file_name) with
    | None => (inl (SysExit 1), printed (file_name +:+ " does not exist.") w)
    | Some Dir => (inl (Raised IsADirectoryError), w)
    | Some (File false _) => (inl (Raised PermissionError), w)
    | Some (File true body) =>
        match _validate {| fid_body := body |} (page_url cfg) (workspaces_url cfg) with
        | inl e =>
            (inl (SysExit 1),
             printed (file_name +:+ " is not a valid workspace:" +:+ newline +:+ exn_str e) w)
        | inr workspace => store_workspace cfg workspace w
        end
    end.
Proof.
  unfold import_start, store_workspace, mbind, prog_bind, os_path_exists, open_read.
  cbv beta.
  destruct (stat (fs w) (abspath file_name)) as [[|[] body]|] eqn:Hs; simpl; rewrite ?Hs; simpl; try done.
  unfold try_except, lift.
  destruct (_validate _ _ _) as [e|workspace]; simpl; done.
Qed.

Lemma stat_snoc (m : gmap path node) d x : stat m (d ++ [x]) = m !! (d ++ [x]).
Proof. by destruct d. Qed.

Lemma parent_snoc d x : parent (d ++ [x]) = d.
Proof. apply removelast_last. Qed.

Lemma stat_insert_ne (m : gmap path node) p n q :
  q ≠ p → stat (<[p := n]> m) q = stat m q.
Proof.
  intros Hne. destruct q; [done|]. simpl. by rewrite lookup_insert_ne.
Qed.

Lemma stat_set_ne p n w q : q ≠ p → stat (fs (set_node p n w)) q = stat (fs w) q.
Proof. apply stat_insert_ne. Qed.

Lemma os_mkdir_run d x w :
  stat (fs w) (d ++ [x]) = None →
  os_mkdir (d ++ [x]) w =
    match stat (fs w) d with
    | Some Dir => (inr tt, set_node (d ++ [x]) Dir w)
    | Some (File _ _) => (inl (Raised NotADirectoryError), w)
    | None => (inl (Raised FileNotFoundError), w)
    end.
Proof. intros Hs. unfold os_mkdir. by rewrite Hs, parent_snoc. Qed.

(** [os.makedirs] of a missing directory either fails and changes
    nothing, or creates directories on the way to it and nothing else. *)
Lemma makedirs_rev_spec rname w :
  stat (fs w) (rev rname) = None →
  match makedirs_rev rname w with
  | (inl s, w') => w' = w ∧ ∃ e, s = Raised e
  | (inr _, w') =>
      stdout w' = stdout w ∧
      stat (fs w') (rev rname) = Some Dir ∧
      ∀ q, stat (fs w') q = stat (fs w) q ∨
           (stat (fs w) q = None ∧ stat (fs w') q = Some Dir ∧ q `prefix_of` rev rname)
  end.
Proof.
  revert w. induction rname as [|tail rhead IH]; intros w Hs; [done|].
  simpl in Hs. simpl. unfold mbind, prog_bind, os_path_exists. cbv beta.
  destruct (stat (fs w) (rev rhead)) as [n|] eqn:Hhead; simpl.
  - rewrite os_mkdir_run, Hhead by done.
    destruct n; [|eauto]. split; [done|]. split.
    { rewrite stat_snoc. simpl. by rewrite lookup_insert_eq. }
    intros q. destruct (decide (q = rev rhead ++ [tail])) as [->|Hne].
    + right. split; [done|]. split; [|done].
      rewrite stat_snoc. simpl. by rewrite lookup_insert_eq.
    + left. by apply stat_set_ne.
  - unfold try_except. specialize (IH w Hhead).
    destruct (makedirs_rev rhead w) as [[sig|[]] w1].
    + destruct IH as [-> [e ->]].
      destruct e; simpl; try eauto.
      rewrite os_mkdir_run, Hhead by done. eauto.
    + destruct IH as (Hout & Hdir & Hframe).
      assert (stat (fs w1) (rev rhead ++ [tail]) = None) as Hs1.
      { destruct (Hframe (rev rhead ++ [tail])) as [-> | (_ & _ & Hpre)]; [done|].
        apply prefix_length in Hpre. rewrite length_app in Hpre. simpl in Hpre. lia. }
      rewrite os_mkdir_run, Hdir by done.
      split; [done|]. split.
      { rewrite stat_snoc. simpl. by rewrite lookup_insert_eq. }
      intros q. destruct (decide (q = rev rhead ++ [tail])) as [->|Hne].
      * right. split; [done|]. split; [|done].
        rewrite stat_snoc. simpl. by rewrite lookup_insert_eq.
      * rewrite stat_set_ne by done.
        destruct (Hframe q) as [-> | (Hq & Hq' & Hpre)]; [by left|].
        right. split; [done|]. split; [done|].
        by apply prefix_app_r.
Qed.

Lemma set_node_twice p n1 n2 w : set_node p n2 (set_node p n1 w) = set_node p n2 w.
Proof. unfold set_node. simpl. by rewrite insert_insert_eq. Qed.

Lemma workspace_path_of_snoc id :
  workspace_path_of cfg id =
    workspaces_dir cfg ++ [slugify id (base_url cfg) +:+ WORKSPACE_EXTENSION].
Proof. reflexivity. Qed.

Lemma write_run workspace id w :
  (out ← open_write (workspace_path_of cfg id);
   fid_write out (json_dumps workspace);;
   print ("Saved workspace: " +:+ path_str (workspace_path_of cfg id))) w =
    write_out cfg workspace id w.
Proof.
  unfold write_out, mbind, prog_bind, open_write. cbv beta.
  rewrite workspace_path_of_snoc, parent_snoc, <- workspace_path_of_snoc.
  destruct (stat (fs w) (workspace_path_of cfg id)) as [[|r body]|] eqn:Hp; [done| |].
  - unfold fid_write. simpl. rewrite lookup_insert_eq. simpl.
    unfold stored, print. by rewrite set_node_twice.
  - destruct (stat (fs w) (workspaces_dir cfg)) as [[|r body]|]; [|done..].
    unfold fid_write. simpl. rewrite lookup_insert_eq. simpl.
    unfold stored, print. by rewrite set_node_twice.
Qed.

Lemma store_workspace_run workspace id w :
  metadata_id workspace = inr (JStr id) →
  store_workspace cfg workspace w =
    match stat (fs w) (workspaces_dir cfg) with
    | Some _ => write_out cfg workspace id w
    | None =>
        match os_makedirs (workspaces_dir cfg) w with
        | (inr _, w1) => write_out cfg workspace id w1
        | (inl (Raised e), w1) =>
            (inl (SysExit 1),
             printed ("Workspaces directory could not be created:"
                      +:+ newline +:+ exn_str e) w1)
        | (inl (SysExit status), w1) => (inl (SysExit status), w1)
        end
    end.
Proof.
  intros Hid. rewrite <- !write_run.
  unfold store_workspace. unfold mbind at 1 2 3 4. unfold prog_bind at 1 2 3 4.
  unfold os_path_exists. cbv beta.
  destruct (stat (fs w) (workspaces_dir cfg)) as [n|] eqn:Hd; simpl.
  - rewrite Hid. reflexivity.
  - unfold try_except.
    destruct (os_makedirs (workspaces_dir cfg) w) as [[[status|e]|[]] w1]; simpl; try done.
    rewrite Hid, <- write_run. reflexivity.
Qed.

Lemma export_start_usage args w :
  (1 < length args)%nat →
  export_start cfg args w =
    (inl (SysExit 1),
     printed "Too many arguments were provided for workspace export." w).
Proof.
  intros Hlen. unfold export_start.
  destruct (Nat.ltb_spec 1 (length args)); [done|lia].
Qed.

Lemma export_start_run args w :
  (length args ≤ 1)%nat →
  export_start cfg args w =
    match stat (fs w) (workspace_path_of cfg (export_raw cfg args)) with
    | None =>
        (inr tt, printed (json_dumps (empty_workspace (export_raw cfg args))) w)
    | Some Dir => (inl (Raised IsADirectoryError), w)
    | Some (File false _) => (inl (Raised PermissionError), w)
    | Some (File true (Text s)) => (inr tt, printed s w)
    | Some (File true Undecodable) =>
        (inr tt, printed (json_dumps (empty_workspace (export_raw cfg args))) w)
    end.
Proof.
  intros Hlen. unfold export_start.
  destruct (Nat.ltb_spec 1 (length args)); [lia|].
  unfold mbind, prog_bind, os_path_exists, open_read. cbv beta zeta.
  destruct (stat (fs w) (workspace_path_of cfg (export_raw cfg args)))
    as [[|[] [s|]]|] eqn:Hs; simpl; rewrite ?Hs; done.
Qed.

(** [open] is outside the [try]: a workspace file without read
    permission ends the export with the exception. *)
Lemma export_unreadable_file args w body :
  (length args ≤ 1)%nat →
  stat (fs w) (workspace_path_of cfg (export_raw cfg args)) = Some (File false body) →
  export_start cfg args w = (inl (Raised PermissionError), w)
  ∧ exit_status (A := unit) (inl (Raised PermissionError)) = 1%Z.
Proof.
  intros Hlen Hs. by rewrite export_start_run, Hs.
Qed.

Lemma accepted_metadata_id doc pu wu :
  accepted doc pu wu →
  ∃ id, metadata_id doc = inr (JStr id) ∧ (id = pu ∨ String.prefix wu id = true).
Proof.
  intros (members & d & meta & s & -> & _ & Hm & Hi & Hs).
  exists s. split; [|done]. unfold metadata_id. simpl. rewrite Hm. simpl. by rewrite Hi.
Qed.

Lemma workspace_path_not_prefix id :
  ¬ workspace_path_of cfg id `prefix_of` workspaces_dir cfg.
Proof.
  intros Hpre%prefix_length. rewrite workspace_path_of_snoc, length_app in Hpre.
  simpl in Hpre. lia.
Qed.

Lemma workspace_path_ne_dir id : workspaces_dir cfg ≠ workspace_path_of cfg id.
Proof.
  intros Heq. apply (workspace_path_not_prefix id). by rewrite <- Heq.
Qed.

Lemma stat_workspace_path (m : gmap path node) id :
  stat m (workspace_path_of cfg id) = m !! workspace_path_of cfg id.
Proof. rewrite workspace_path_of_snoc. apply stat_snoc. Qed.

(** What a completed import has done. *)
Lemma import_start_ok f w w' body doc :
  stat (fs w) (abspath f) = Some (File true body) →
  _validate {| fid_body := body |} (page_url cfg) (workspaces_url cfg) = inr doc →
  import_start cfg [f] w = (inr tt, w') →
  ∃ id w1,
    metadata_id doc = inr (JStr id) ∧
    w' = stored cfg doc id (readable_at (fs w) (workspace_path_of cfg id)) w1 ∧
    stdout w1 = stdout w ∧
    stat (fs w1) (workspaces_dir cfg) ≠ None ∧
    ∀ q, stat (fs w1) q = stat (fs w) q ∨
         (stat (fs w) q = None ∧ stat (fs w1) q = Some Dir
          ∧ q `prefix_of` workspaces_dir cfg).
Proof.
  intros Hsrc Hval. rewrite import_start_unfold, Hsrc, Hval.
  apply validate_accepted_iff in Hval as [_ Hacc].
  apply accepted_metadata_id in Hacc as (id & Hid & _).
  rewrite (store_workspace_run _ id) by done.
  assert (∀ w1, stat (fs w1) (workspace_path_of cfg id)
                = stat (fs w) (workspace_path_of cfg id) →
                write_out cfg doc id w1 = (inr (), w') →
                w' = stored cfg doc id (readable_at (fs w) (workspace_path_of cfg id)) w1)
    as Hwrite.
  { intros w1 Hsame. unfold write_out, readable_at. rewrite Hsame.
    destruct (stat (fs w) (workspace_path_of cfg id)) as [[|r b]|]; [done| |].
    - by intros [= <-].
    - destruct (stat (fs w1) (workspaces_dir cfg)) as [[|]|]; [|done..].
      by intros [= <-]. }
  destruct (stat (fs w) (workspaces_dir cfg)) as [n|] eqn:Hd.
  - intros Hw. exists id, w. split; [done|]. split; [by apply Hwrite|].
    split; [done|]. split; [by rewrite Hd|]. by left.
  - pose proof (makedirs_rev_spec (rev (workspaces_dir cfg)) w) as Hmk.
    rewrite rev_involutive in Hmk. specialize (Hmk Hd).
    unfold os_makedirs.
    destruct (makedirs_rev (rev (workspaces_dir cfg)) w) as [[[status|e]|[]] w1];
      [done..|].
    destruct Hmk as (Hout & Hdir & Hframe).
    intros Hw. exists id, w1. split; [done|]. split.
    { apply Hwrite; [|done].
      destruct (Hframe (workspace_path_of cfg id)) as [-> | (_ & _ & Hpre)]; [done|].
      by apply workspace_path_not_prefix in Hpre. }
    split; [done|]. split; [by rewrite Hdir|]. done.
Qed.

(** An import into a workspaces directory that is there completes. *)
Lemma import_start_existing_dir f w body doc id :
  stat (fs w) (abspath f) = Some (File true body) →
  _validate {| fid_body := body |} (page_url cfg) (workspaces_url cfg) = inr doc →
  metadata_id doc = inr (JStr id) →
  stat (fs w) (workspaces_dir cfg) = Some Dir →
  stat (fs w) (workspace_path_of cfg id) ≠ Some Dir →
  import_start cfg [f] w =
    (inr tt, stored cfg doc id (readable_at (fs w) (workspace_path_of cfg id)) w).
Proof.
  intros Hsrc Hval Hid Hd Hp.
  rewrite import_start_unfold, Hsrc, Hval, (store_workspace_run _ id), Hd by done.
  unfold write_out, readable_at. rewrite Hd.
  by destruct (stat (fs w) (workspace_path_of cfg id)) as [[|r b]|].
Qed.
End Runs.

(** ** Directories made on the way *)

Section Trees.
Lemma prefix_snoc_cases (q h : path) x :
  q `prefix_of` h ++ [x] → q = h ++ [x] ∨ q `prefix_of` h.
Proof.
  intros [k Hk]. destruct k as [|y k' _] using rev_ind.
  - left. by rewrite app_nil_r in Hk.
  - right. rewrite app_assoc in Hk. apply app_inj_tail in Hk as [-> _].
    by exists k'.
Qed.

Lemma tree_prefix (m : gmap path node) h n :
  tree m → stat m h = Some n →
  ∀ q, q `prefix_of` h → q ≠ h → stat m q = Some Dir.
Proof.
  intros Htree. revert n. induction h as [|x h IH] using rev_ind; intros n Hh q Hq Hne.
  - apply prefix_nil_inv in Hq. done.
  - apply prefix_snoc_cases in Hq as [->|Hq]; [done|].
    rewrite stat_snoc in Hh. apply Htree in Hh. rewrite parent_snoc in Hh.
    destruct (decide (q = h)) as [->|Hqh]; [done|]. by apply (IH Dir).
Qed.

Lemma tree_child_missing (m : gmap path node) d x :
  tree m → stat m d = None → stat m (d ++ [x]) = None.
Proof.
  intros Htree Hd. destruct (stat m (d ++ [x])) as [n|] eqn:Hx; [|done].
  rewrite stat_snoc in Hx. apply Htree in Hx. rewrite parent_snoc in Hx. congruence.
Qed.

(** In a file tree, a completed [os.makedirs] leaves a directory at
    every prefix of the path. *)
Lemma makedirs_rev_prefixes rname w w1 :
  tree (fs w) →
  makedirs_rev rname w = (inr tt, w1) →
  ∀ q, q `prefix_of` rev rname → stat (fs w1) q = Some Dir.
Proof.
  intros Htree. revert w1. induction rname as [|tail rhead IH]; intros w1.
  { simpl. unfold os_mkdir. simpl. done. }
  simpl. unfold mbind, prog_bind, os_path_exists. cbv beta.
  destruct (stat (fs w) (rev rhead)) as [n|] eqn:Hhead; simpl.
  - unfold os_mkdir. rewrite parent_snoc, Hhead.
    destruct (stat (fs w) (rev rhead ++ [tail])); [done|].
    destruct n; [|done]. intros [= <-] q Hq.
    apply prefix_snoc_cases in Hq as [->|Hq].
    + rewrite stat_snoc. simpl. by rewrite lookup_insert_eq.
    + rewrite stat_set_ne.
      * destruct (decide (q = rev rhead)) as [->|Hne]; [done|].
        by apply (tree_prefix _ (rev rhead) Dir).
      * intros ->. by apply prefix_snoc_not in Hq.
  - unfold try_except.
    destruct (makedirs_rev rhead w) as [[[status|e]|[]] w'] eqn:Hrec; [done| |].
    { destruct e; try done. simpl.
      pose proof (makedirs_rev_spec rhead w Hhead) as Hspec.
      rewrite Hrec in Hspec. destruct Hspec as [-> _].
      unfold os_mkdir. rewrite parent_snoc, Hhead.
      by destruct (stat (fs w) (rev rhead ++ [tail])). }
    specialize (IH w' eq_refl).
    unfold os_mkdir. rewrite parent_snoc, (IH (rev rhead)) by done.
    destruct (stat (fs w') (rev rhead ++ [tail])); [done|].
    intros [= <-] q Hq. apply prefix_snoc_cases in Hq as [->|Hq].
    + rewrite stat_snoc. simpl. by rewrite lookup_insert_eq.
    + rewrite stat_set_ne; [by apply IH|].
      intros ->. by apply prefix_snoc_not in Hq.
Qed.
End Trees.

(** ** The properties of the workspace subsystem *)

Section Properties.
Context `{Externals} (cfg : config).

(** C1, as amended.  A document the validator accepts has a string
    [metadata.id] that equals [page_url] or that [workspaces_url] is a
    plain string prefix of ([str.startswith], which does not stop at a
    path segment).  A document with [data], with a [metadata] object and
    with an id that is a string satisfying neither is rejected with the
    identity-mismatch failure; an id that is not a string is rejected
    by the [AttributeError] of the interpreter; and such a document
    whose id is a string satisfying one of the two is accepted. *)
Theorem validate_identity fid pu wu :
  (∀ w, _validate fid pu wu = inr w →
        ∃ id, metadata_id w = inr (JStr id)
              ∧ (id = pu ∨ String.prefix wu id = true))
  ∧ (∀ members d meta v,
       json_load fid = inr (JObj members) →
       dict_get "data" members = Some d →
       dict_get "metadata" members = Some (JObj meta) →
       dict_get "id" meta = Some v →
       match v with
       | JStr id =>
           id ≠ pu → String.prefix wu id = false →
           _validate fid pu wu = inl (Exception (id_mismatch id))
       | _ => _validate fid pu wu = inl AttributeError
       end)
  ∧ (∀ members d meta id,
       json_load fid = inr (JObj members) →
       dict_get "data" members = Some d →
       dict_get "metadata" members = Some (JObj meta) →
       dict_get "id" meta = Some (JStr id) →
       id = pu ∨ String.prefix wu id = true →
       _validate fid pu wu = inr (JObj members)).
Proof.
  split; [|split].
  - intros w [_ Hacc]%validate_accepted_iff.
    by apply accepted_metadata_id.
  - intros members d meta v Hload Hd Hm Hi. unfold _validate. rewrite Hload.
    simpl. unfold dict_has. rewrite Hd, Hm. simpl.
    unfold dict_has. rewrite Hi. simpl.
    destruct v; try reflexivity.
    intros Hne Hpre. unfold py_ne. simpl.
    destruct (String.eqb_spec pu s) as [->|_]; [done|]. simpl.
    by rewrite Hpre.
  - intros members d meta id Hload Hd Hm Hi Hs.
    apply validate_accepted_iff. split; [done|]. by exists members, d, meta, id.
Qed.

(** C3.  The rules are applied in the order malformed JSON, missing
    [data], missing [metadata], missing [metadata.id], identity: when a
    document violates a rule and satisfies every rule before it, the
    validator reports the failure of that rule, whatever the rules
    after it say of the document. *)
Theorem validate_first_failure_wins fid pu wu r e :
  verdict r fid pu wu = inl e →
  (∀ r', rule_index r' < rule_index r → verdict r' fid pu wu = inr tt) →
  _validate fid pu wu = inl e.
Proof.
  unfold verdict, _validate.
  destruct (json_load fid) as [e0|w]; simpl; intros Hr Hrules.
  { destruct r; try (by specialize (Hrules WellFormedJson ltac:(simpl; lia))).
    by injection Hr as ->. }
  pose proof (λ r' Hlt, Hrules r' Hlt) as Hdata.
  pose proof (λ r' Hlt, Hrules r' Hlt) as Hmeta.
  pose proof (λ r' Hlt, Hrules r' Hlt) as Hid.
  destruct r; simpl in Hr; try done; clear Hrules.
  - clear Hdata Hmeta Hid. revert Hr.
    destruct (py_in "data" w) as [?|[]]; simpl; settle.
  - specialize (Hdata HasData ltac:(simpl; lia)). clear Hmeta Hid.
    revert Hr Hdata. simpl.
    destruct (py_in "data" w) as [?|[]]; simpl; try settle.
    destruct (py_in "metadata" w) as [?|[]]; simpl; settle.
  - specialize (Hdata HasData ltac:(simpl; lia)).
    specialize (Hmeta HasMetadata ltac:(simpl; lia)). clear Hid.
    revert Hr Hdata Hmeta. simpl.
    destruct (py_in "data" w) as [?|[]]; simpl; try settle.
    destruct (py_in "metadata" w) as [?|[]]; simpl; try settle.
    destruct (py_getitem w "metadata") as [?|meta]; simpl; try settle.
    destruct (py_in "id" meta) as [?|[]]; simpl; settle.
  - specialize (Hdata HasData ltac:(simpl; lia)).
    specialize (Hmeta HasMetadata ltac:(simpl; lia)).
    specialize (Hid HasId ltac:(simpl; lia)).
    revert Hr Hdata Hmeta Hid. unfold metadata_id. simpl.
    destruct (py_in "data" w) as [?|[]]; simpl; try settle.
    destruct (py_in "metadata" w) as [?|[]]; simpl; try settle.
    destruct (py_getitem w "metadata") as [?|meta]; simpl; try settle.
    destruct (py_in "id" meta) as [?|[]]; simpl; try settle.
    destruct (py_getitem meta "id") as [?|id]; simpl; try settle.
    destruct (py_ne id pu); simpl; try settle.
    destruct (py_startswith id wu) as [?|[]]; simpl; settle.
Qed.

(** C4.  An import that stops on a usage error, on a missing source
    file or on a validation failure exits with status 1 and leaves the
    file system as it was: nothing is written, no directory is made. *)
Theorem import_failure_leaves_store_untouched args w :
  length args ≠ 1%nat
  ∨ (∃ f, args = [f] ∧ stat (fs w) (abspath f) = None)
  ∨ (∃ f body e,
       args = [f] ∧ stat (fs w) (abspath f) = Some (File true body)
       ∧ _validate {| fid_body := body |} (page_url cfg) (workspaces_url cfg) = inl e) →
  ∃ r w' msg,
    import_start cfg args w = (r, w')
    ∧ exit_status r = 1%Z
    ∧ fs w' = fs w
    ∧ stdout w' = stdout w ++ [msg].
Proof.
  intros [Hlen | [(f & -> & Hs) | (f & body & e & -> & Hs & Hv)]].
  - rewrite import_start_usage by done. by eexists _, _, _.
  - rewrite import_start_unfold, Hs. by eexists _, _, _.
  - rewrite import_start_unfold, Hs, Hv. by eexists _, _, _.
Qed.

(** C2, as amended.  When the workspace file of the export target
    exists and opens for reading, export prints its contents as they
    are, without parsing them, and prints the empty workspace with the
    resolved identifier only when reading the opened file raises;
    either way it returns normally. *)
Theorem export_existing_file args w body :
  (length args ≤ 1)%nat →
  stat (fs w) (workspace_path_of cfg (export_raw cfg args)) = Some (File true body) →
  export_start cfg args w =
    (inr tt,
     printed match body with
             | Text s => s
             | Undecodable => json_dumps (empty_workspace (export_raw cfg args))
             end w).
Proof.
  intros Hlen Hs. rewrite export_start_run, Hs by done. by destruct body.
Qed.

(** C5.  With no argument export resolves to [page_url], with one to
    [ujoin(workspaces_url, name)]; when nothing exists at the path of
    the resolved identifier it prints exactly the empty workspace with
    that identifier, as for ["foo"] under ["/lab/workspaces"]. *)
Theorem export_missing_workspace :
  export_raw cfg [] = page_url cfg
  ∧ (∀ name, export_raw cfg [name] = ujoin (workspaces_url cfg) name)
  ∧ (∀ args w,
       (length args ≤ 1)%nat →
       stat (fs w) (workspace_path_of cfg (export_raw cfg args)) = None →
       export_start cfg args w =
         (inr tt,
          printed (json_dumps
                     (JObj [("data", JObj []);
                            ("metadata", JObj [("id", JStr (export_raw cfg args))])]))
                  w))
  ∧ @export_start Demo.externals Demo.lab ["foo"] {| fs := ∅; stdout := [] |} =
      (inr tt,
       {| fs := ∅;
          stdout := [Demo.dq "{'data': {}, 'metadata': {'id': '/lab/workspaces/foo'}}"] |}).
Proof.
  split; [done|]. split; [done|]. split.
  - intros args w Hlen Hs. by rewrite export_start_run, Hs.
  - vm_compute. reflexivity.
Qed.

(** C6.  After the import of a well-formed document whose id is
    [page_url], an export without argument prints the serialization of
    that document; read back, it has the same [data] and the same
    [metadata.id]. *)
Theorem import_export_round_trip f w w1 body doc :
  stat (fs w) (abspath f) = Some (File true body) →
  _validate {| fid_body := body |} (page_url cfg) (workspaces_url cfg) = inr doc →
  metadata_id doc = inr (JStr (page_url cfg)) →
  readable_at (fs w) (workspace_path_of cfg (page_url cfg)) = true →
  json_loads (json_dumps doc) = Some doc →
  import_start cfg [f] w = (inr tt, w1) →
  ∃ out doc',
    export_start cfg [] w1 = (inr tt, printed out w1)
    ∧ out = json_dumps doc
    ∧ json_loads out = Some doc'
    ∧ py_getitem doc' "data" = py_getitem doc "data"
    ∧ metadata_id doc' = metadata_id doc.
Proof.
  intros Hsrc Hval Hid Hread Hrt Himp.
  destruct (import_start_ok cfg f w w1 body doc Hsrc Hval Himp)
    as (id & w0 & Hid' & -> & _).
  rewrite Hid in Hid'. injection Hid' as <-. rewrite Hread.
  exists (json_dumps doc), doc. split; [|done].
  rewrite export_start_run by (simpl; lia). simpl export_raw.
  rewrite stat_workspace_path. simpl. by rewrite lookup_insert_eq.
Qed.

(** C7.  Two imports of documents with the same id leave one file at
    the path of that id, holding the serialization of the second
    document and nothing of the first; and a second import of the same
    source file completes and leaves the file system as the first
    import left it. *)
Theorem import_twice_overwrites :
  (∀ f1 f2 w0 w1 w2 b1 b2 d1 d2 id,
     stat (fs w0) (abspath f1) = Some (File true b1) →
     _validate {| fid_body := b1 |} (page_url cfg) (workspaces_url cfg) = inr d1 →
     metadata_id d1 = inr (JStr id) →
     import_start cfg [f1] w0 = (inr tt, w1) →
     stat (fs w1) (abspath f2) = Some (File true b2) →
     _validate {| fid_body := b2 |} (page_url cfg) (workspaces_url cfg) = inr d2 →
     metadata_id d2 = inr (JStr id) →
     import_start cfg [f2] w1 = (inr tt, w2) →
     ∃ r,
       fs w1 !! workspace_path_of cfg id = Some (File r (Text (json_dumps d1)))
       ∧ fs w2 = <[workspace_path_of cfg id := File r (Text (json_dumps d2))]> (fs w1)
       ∧ dom (fs w2) = dom (fs w1))
  ∧ (∀ f w0 w1 body doc id,
       stat (fs w0) (abspath f) = Some (File true body) →
       _validate {| fid_body := body |} (page_url cfg) (workspaces_url cfg) = inr doc →
       metadata_id doc = inr (JStr id) →
       abspath f ≠ workspace_path_of cfg id →
       import_start cfg [f] w0 = (inr tt, w1) →
       ∃ w2, import_start cfg [f] w1 = (inr tt, w2) ∧ fs w2 = fs w1).
Proof.
  assert (∀ f w0 w1 body doc id,
            stat (fs w0) (abspath f) = Some (File true body) →
            _validate {| fid_body := body |} (page_url cfg) (workspaces_url cfg) = inr doc →
            metadata_id doc = inr (JStr id) →
            import_start cfg [f] w0 = (inr tt, w1) →
            (∃ r, fs w1 !! workspace_path_of cfg id
                  = Some (File r (Text (json_dumps doc))))
            ∧ stat (fs w1) (workspaces_dir cfg) ≠ None
            ∧ ∀ q n, q ≠ workspace_path_of cfg id →
                     stat (fs w0) q = Some n → stat (fs w1) q = Some n) as Hfirst.
  { intros f w0 w1 body doc id Hsrc Hval Hid Himp.
    destruct (import_start_ok cfg f w0 w1 body doc Hsrc Hval Himp)
      as (id' & w & Hid' & -> & _ & Hdir & Hframe).
    rewrite Hid in Hid'. injection Hid' as <-. split; [|split].
    - eexists. simpl. by rewrite lookup_insert_eq.
    - simpl. rewrite stat_insert_ne; [done|].
      apply workspace_path_ne_dir.
    - intros q n Hq Hn. simpl. rewrite stat_insert_ne by done.
      destruct (Hframe q) as [-> | (Hnone & _)]; congruence. }
  assert (∀ f w1 body doc id r b,
            stat (fs w1) (abspath f) = Some (File true body) →
            _validate {| fid_body := body |} (page_url cfg) (workspaces_url cfg) = inr doc →
            metadata_id doc = inr (JStr id) →
            stat (fs w1) (workspaces_dir cfg) ≠ None →
            fs w1 !! workspace_path_of cfg id = Some (File r b) →
            import_start cfg [f] w1 = (inr tt, stored cfg doc id r w1)) as Hsecond.
  { intros f w1 body doc id r b Hsrc Hval Hid Hdir Hp.
    rewrite import_start_unfold, Hsrc, Hval, (store_workspace_run _ _ id) by done.
    destruct (stat (fs w1) (workspaces_dir cfg)); [|done].
    unfold write_out. by rewrite stat_workspace_path, Hp. }
  split.
  - intros f1 f2 w0 w1 w2 b1 b2 d1 d2 id Hs1 Hv1 Hi1 Him1 Hs2 Hv2 Hi2 Him2.
    destruct (Hfirst f1 w0 w1 b1 d1 id Hs1 Hv1 Hi1 Him1) as ([r Hp] & Hdir & _).
    rewrite (Hsecond f2 w1 b2 d2 id r _ Hs2 Hv2 Hi2 Hdir Hp) in Him2.
    injection Him2 as <-. exists r. split; [done|]. split; [done|].
    simpl. apply dom_insert_lookup_L. by rewrite Hp.
  - intros f w0 w1 body doc id Hsrc Hval Hid Hne Himp.
    destruct (Hfirst f w0 w1 body doc id Hsrc Hval Hid Himp) as ([r Hp] & Hdir & Hkeep).
    eexists. split.
    + eapply Hsecond; eauto.
    + simpl. by apply insert_id.
Qed.

(** C8.  When the document is valid and the workspaces directory does
    not exist, import calls [os.makedirs]: if that completes, import
    completes too, every prefix of the directory is a directory and
    the new workspace file lies in it; if it raises, import prints the
    message, exits with status 1 and leaves the file system as it was. *)
Theorem import_creates_directory f w body doc id :
  tree (fs w) →
  stat (fs w) (abspath f) = Some (File true body) →
  _validate {| fid_body := body |} (page_url cfg) (workspaces_url cfg) = inr doc →
  metadata_id doc = inr (JStr id) →
  stat (fs w) (workspaces_dir cfg) = None →
  match os_makedirs (workspaces_dir cfg) w with
  | (inr _, _) =>
      ∃ w',
        import_start cfg [f] w = (inr tt, w')
        ∧ (∀ q, q `prefix_of` workspaces_dir cfg → stat (fs w') q = Some Dir)
        ∧ fs w' !! (workspaces_dir cfg
                    ++ [slugify id (base_url cfg) +:+ WORKSPACE_EXTENSION])
          = Some (File true (Text (json_dumps doc)))
  | (inl (Raised e), _) =>
      import_start cfg [f] w =
        (inl (SysExit 1),
         printed ("Workspaces directory could not be created:"
                  +:+ newline +:+ exn_str e) w)
      ∧ exit_status (A := unit) (inl (SysExit 1)) ≠ 0%Z
  | (inl (SysExit _), _) => False
  end.
Proof.
  intros Htree Hsrc Hval Hid Hd.
  rewrite import_start_unfold, Hsrc, Hval, (store_workspace_run _ _ id), Hd by done.
  pose proof (makedirs_rev_spec (rev (workspaces_dir cfg)) w) as Hspec.
  pose proof (makedirs_rev_prefixes (rev (workspaces_dir cfg)) w) as Hpre.
  rewrite rev_involutive in Hspec, Hpre. specialize (Hspec Hd).
  unfold os_makedirs.
  destruct (makedirs_rev (rev (workspaces_dir cfg)) w) as [[[status|e]|[]] w1].
  - by destruct Hspec as [_ [e ?]].
  - destruct Hspec as [-> _]. done.
  - destruct Hspec as (_ & Hdir & Hframe). specialize (Hpre w1 Htree eq_refl).
    assert (stat (fs w1) (workspace_path_of cfg id) = None) as Hp.
    { destruct (Hframe (workspace_path_of cfg id)) as [-> | (_ & _ & Hbad)].
      - by apply tree_child_missing.
      - by apply workspace_path_not_prefix in Hbad. }
    unfold write_out. rewrite Hp, Hdir. eexists. split; [done|]. split.
    + intros q Hq. simpl. rewrite stat_insert_ne; [by apply Hpre|].
      intros ->. by apply workspace_path_not_prefix in Hq.
    + simpl. by rewrite lookup_insert_eq.
Qed.

(** C9.  The workspace the validator returns is the parsed input
    itself, so each top-level member of the input, the extra keys
    included, is in it with its value; and a completed import has
    written the serialization of that same value to the store. *)
Theorem validation_preserves_content f w body doc :
  _validate {| fid_body := body |} (page_url cfg) (workspaces_url cfg) = inr doc →
  json_load {| fid_body := body |} = inr doc
  ∧ (∀ members k v,
       json_load {| fid_body := body |} = inr (JObj members) →
       dict_get k members = Some v →
       py_getitem doc k = inr v)
  ∧ (∀ w',
       stat (fs w) (abspath f) = Some (File true body) →
       import_start cfg [f] w = (inr tt, w') →
       ∃ id r,
         metadata_id doc = inr (JStr id)
         ∧ fs w' !! workspace_path_of cfg id
           = Some (File r (Text (json_dumps doc)))).
Proof.
  intros Hval.
  pose proof Hval as [Hload _]%validate_accepted_iff.
  split; [done|]. split.
  - intros members k v Hm Hk. rewrite Hload in Hm. injection Hm as ->.
    simpl. by rewrite Hk.
  - intros w' Hsrc Himp.
    destruct (import_start_ok cfg f w w' body doc Hsrc Hval Himp)
      as (id & w1 & Hid & -> & _).
    eexists id, _. split; [done|]. simpl. by rewrite lookup_insert_eq.
Qed.

(** C10.  The validator looks at the presence of keys only: a document
    with a [data] member of any type, a [metadata] object and an id
    that passes the identity check is accepted, and an import into an
    existing workspaces directory stores its serialization as it is. *)
Theorem validation_ignores_value_types f w text members d meta id :
  json_loads text = Some (JObj members) →
  dict_get "data" members = Some d →
  dict_get "metadata" members = Some (JObj meta) →
  dict_get "id" meta = Some (JStr id) →
  id = page_url cfg ∨ String.prefix (workspaces_url cfg) id = true →
  _validate {| fid_body := Text text |} (page_url cfg) (workspaces_url cfg)
    = inr (JObj members)
  ∧ (stat (fs w) (abspath f) = Some (File true (Text text)) →
     stat (fs w) (workspaces_dir cfg) = Some Dir →
     stat (fs w) (workspace_path_of cfg id) ≠ Some Dir →
     ∃ w' r,
       import_start cfg [f] w = (inr tt, w')
       ∧ fs w' !! workspace_path_of cfg id
         = Some (File r (Text (json_dumps (JObj members))))).
Proof.
  intros Hload Hd Hm Hi Hs.
  assert (_validate {| fid_body := Text text |} (page_url cfg) (workspaces_url cfg)
          = inr (JObj members)) as Hval.
  { apply validate_accepted_iff. split.
    - unfold json_load. simpl. by rewrite Hload.
    - by exists members, d, meta, id. }
  split; [done|]. intros Hsrc Hdir Hp.
  assert (metadata_id (JObj members) = inr (JStr id)) as Hid.
  { unfold metadata_id. simpl. rewrite Hm. simpl. by rewrite Hi. }
  rewrite (import_start_existing_dir cfg f w _ _ id Hsrc Hval Hid Hdir Hp).
  eexists _, _. split; [done|]. simpl. by rewrite lookup_insert_eq.
Qed.
End Properties.

(** ** The properties at work on concrete inputs *)

Section Instances.
Import Demo.
#[local] Existing Instance Demo.externals.

Lemma validate_identity_witness :
  (∃ id, metadata_id root_doc = inr (JStr id)
         ∧ (id = "/lab" ∨ String.prefix "/lab/workspaces" id = true))
  ∧ _validate {| fid_body := Text stray_text |} "/lab" "/lab/workspaces"
    = inl (Exception (id_mismatch "/elsewhere")).
Proof.
  split.
  - apply (proj1 (validate_identity {| fid_body := Text root_text |}
                    "/lab" "/lab/workspaces") root_doc).
    vm_compute. reflexivity.
  - apply (proj1 (proj2 (validate_identity {| fid_body := Text stray_text |}
                           "/lab" "/lab/workspaces"))
             [("data", JObj []); ("metadata", JObj [("id", JStr "/elsewhere")])]
             (JObj []) [("id", JStr "/elsewhere")] (JStr "/elsewhere"));
      try (vm_compute; reflexivity).
    discriminate.
Defined.

(** C1 as stated fails: an id that only shares [/lab/workspaces] as a
    string prefix, and is not under it as a path, is accepted. *)
Lemma outside_namespace_id_accepted :
  _validate {| fid_body := Text outside_text |} "/lab" "/lab/workspaces"
    = inr outside_doc
  ∧ metadata_id outside_doc = inr (JStr "/lab/workspacesfoo")
  ∧ "/lab/workspacesfoo" ≠ "/lab"
  ∧ path_prefix "/lab/workspaces" "/lab/workspacesfoo" = false.
Proof.
  split; [vm_compute; reflexivity|]. split; [vm_compute; reflexivity|].
  split; [discriminate|]. vm_compute. reflexivity.
Qed.

Lemma export_existing_file_witness :
  export_start lab [] garbled
  = (inr tt, printed (json_dumps (empty_workspace "/lab")) garbled).
Proof.
  apply (export_existing_file lab [] garbled Undecodable).
  - simpl. lia.
  - vm_compute. reflexivity.
Defined.

(** C2 as stated fails: a workspace file that does not parse is
    printed as it is, not replaced by the empty workspace; and a
    workspace file that cannot be opened ends the export with the
    exception of [open]. *)
Lemma corrupt_file_exported_verbatim :
  (stat (fs corrupt) (workspace_path_of lab (export_raw lab []))
     = Some (File true (Text "not json"))
   ∧ json_loads "not json" = None
   ∧ export_start lab [] corrupt = (inr tt, printed "not json" corrupt)
   ∧ "not json" ≠ json_dumps (empty_workspace (export_raw lab [])))
  ∧ (stat (fs locked) (workspace_path_of lab (export_raw lab []))
       = Some (File false (Text root_text))
     ∧ export_start lab [] locked = (inl (Raised PermissionError), locked)
     ∧ exit_status (A := unit) (inl (Raised PermissionError)) ≠ 0%Z).
Proof.
  split.
  - split; [vm_compute; reflexivity|]. split; [vm_compute; reflexivity|].
    split; [vm_compute; reflexivity|]. vm_compute. discriminate.
  - split; [vm_compute; reflexivity|]. split; [vm_compute; reflexivity|].
    vm_compute. discriminate.
Qed.

Lemma validate_first_failure_wins_witness :
  _validate {| fid_body := Text "{}" |} "/lab" "/lab/workspaces"
  = inl (Exception data_missing).
Proof.
  apply (validate_first_failure_wins _ _ _ HasData).
  - vm_compute. reflexivity.
  - intros r' Hlt. destruct r'; simpl in Hlt; try lia.
    vm_compute. reflexivity.
Defined.

Lemma import_failure_leaves_store_untouched_witness :
  ∃ r w' msg,
    import_start lab ["/tmp/root.json"; "/tmp/later.json"] settled = (r, w')
    ∧ exit_status r = 1%Z
    ∧ fs w' = fs settled
    ∧ stdout w' = stdout settled ++ [msg].
Proof.
  apply (import_failure_leaves_store_untouched lab).
  left. simpl. lia.
Defined.

Lemma export_missing_workspace_witness :
  export_start lab ["foo"] fresh
  = (inr tt,
     printed (json_dumps
                (JObj [("data", JObj []);
                       ("metadata", JObj [("id", JStr (export_raw lab ["foo"]))])]))
             fresh).
Proof.
  apply (proj1 (proj2 (proj2 (export_missing_workspace lab)))).
  - simpl. lia.
  - vm_compute. reflexivity.
Defined.

Lemma import_export_round_trip_witness :
  ∃ out doc',
    export_start lab [] (import_start lab ["/tmp/root.json"] settled).2
    = (inr tt, printed out (import_start lab ["/tmp/root.json"] settled).2)
    ∧ out = json_dumps root_doc
    ∧ json_loads out = Some doc'
    ∧ py_getitem doc' "data" = py_getitem root_doc "data"
    ∧ metadata_id doc' = metadata_id root_doc.
Proof.
  apply (import_export_round_trip lab "/tmp/root.json" settled _ (Text root_text));
    vm_compute; reflexivity.
Defined.

Lemma import_twice_overwrites_witness :
  (∃ r,
     fs (import_start lab ["/tmp/root.json"] settled).2 !! workspace_path_of lab "/lab"
     = Some (File r (Text (json_dumps root_doc)))
     ∧ fs (import_start lab ["/tmp/later.json"]
             (import_start lab ["/tmp/root.json"] settled).2).2
       = <[workspace_path_of lab "/lab" := File r (Text (json_dumps later_doc))]>
           (fs (import_start lab ["/tmp/root.json"] settled).2)
     ∧ dom (fs (import_start lab ["/tmp/later.json"]
                  (import_start lab ["/tmp/root.json"] settled).2).2)
       = dom (fs (import_start lab ["/tmp/root.json"] settled).2))
  ∧ (∃ w2,
       import_start lab ["/tmp/root.json"]
         (import_start lab ["/tmp/root.json"] settled).2 = (inr tt, w2)
       ∧ fs w2 = fs (import_start lab ["/tmp/root.json"] settled).2).
Proof.
  split.
  - apply (proj1 (import_twice_overwrites lab)
             "/tmp/root.json" "/tmp/later.json" settled
             (import_start lab ["/tmp/root.json"] settled).2
             (import_start lab ["/tmp/later.json"]
                (import_start lab ["/tmp/root.json"] settled).2).2
             (Text root_text) (Text later_text) root_doc later_doc "/lab");
      vm_compute; reflexivity.
  - apply (proj2 (import_twice_overwrites lab)
             "/tmp/root.json" settled
             (import_start lab ["/tmp/root.json"] settled).2
             (Text root_text) root_doc "/lab");
      try (vm_compute; reflexivity).
    vm_compute. discriminate.
Defined.

Example import_behind_a_file :
  import_start lab ["/tmp/root.json"] walled
  = (inl (SysExit 1),
     printed ("Workspaces directory could not be created:"
              +:+ newline +:+ "NotADirectoryError") walled).
Proof. vm_compute. reflexivity. Qed.

Lemma fresh_is_a_tree : tree (fs fresh).
Proof. apply (bool_decide_unpack (tree (fs fresh))). vm_compute. exact I. Qed.

Lemma walled_is_a_tree : tree (fs walled).
Proof. apply (bool_decide_unpack (tree (fs walled))). vm_compute. exact I. Qed.

Lemma import_creates_directory_witness :
  (∃ w',
     import_start lab ["/tmp/root.json"] fresh = (inr tt, w')
     ∧ (∀ q, q `prefix_of` ["home"; "lab"; "workspaces"] → stat (fs w') q = Some Dir)
     ∧ fs w' !! root_workspace_file = Some (File true (Text (json_dumps root_doc))))
  ∧ (import_start lab ["/tmp/root.json"] walled
     = (inl (SysExit 1),
        printed ("Workspaces directory could not be created:"
                 +:+ newline +:+ exn_str NotADirectoryError) walled)
     ∧ exit_status (A := unit) (inl (SysExit 1)) ≠ 0%Z).
Proof.
  split.
  - pose proof (import_creates_directory lab "/tmp/root.json" fresh
                  (Text root_text) root_doc "/lab") as Hw.
    vm_compute os_makedirs in Hw.
    apply Hw; [exact fresh_is_a_tree | vm_compute; reflexivity ..].
  - pose proof (import_creates_directory lab "/tmp/root.json" walled
                  (Text root_text) root_doc "/lab") as Hw.
    vm_compute os_makedirs in Hw.
    apply Hw; [exact walled_is_a_tree | vm_compute; reflexivity ..].
Defined.

Lemma validation_preserves_content_witness :
  json_load {| fid_body := Text root_text |} = inr root_doc
  ∧ py_getitem root_doc "extra" = inr (JArr [JInt 1; JInt 2])
  ∧ ∃ id r,
      metadata_id root_doc = inr (JStr id)
      ∧ fs (import_start lab ["/tmp/root.json"] settled).2 !! workspace_path_of lab id
        = Some (File r (Text (json_dumps root_doc))).
Proof.
  destruct (validation_preserves_content lab "/tmp/root.json" settled
              (Text root_text) root_doc) as (Hload & Hkeys & Hstore).
  { vm_compute. reflexivity. }
  split; [exact Hload|]. split.
  - apply (Hkeys _ "extra" _ Hload). vm_compute. reflexivity.
  - apply Hstore; vm_compute; reflexivity.
Defined.

Lemma validation_ignores_value_types_witness :
  _validate {| fid_body := Text scalar_text |} "/lab" "/lab/workspaces"
    = inr (JObj scalar_members)
  ∧ ∃ w' r,
      import_start lab ["/tmp/scalar.json"] settled = (inr tt, w')
      ∧ fs w' !! workspace_path_of lab "/lab/workspaces/foo"
        = Some (File r (Text (json_dumps (JObj scalar_members)))).
Proof.
  destruct (validation_ignores_value_types lab "/tmp/scalar.json" settled scalar_text
              scalar_members (JInt 5) [("id", JStr "/lab/workspaces/foo")]
              "/lab/workspaces/foo") as [Hval Hstore];
    try (vm_compute; reflexivity).
  { right. vm_compute. reflexivity. }
  split; [exact Hval|].
  apply Hstore; try (vm_compute; reflexivity). vm_compute. discriminate.
Defined.
End Instances.

(** ** More about export *)

Section Exporting.
Context `{Externals} (cfg : config).

(** X1.  With more than one argument export prints the usage message
    and nothing else, exits with status 1 and leaves the file system
    alone. *)
Theorem export_too_many_arguments args w :
  (1 < length args)%nat →
  ∃ w',
    export_start cfg args w = (inl (SysExit 1), w')
    ∧ exit_status (export_start cfg args w).1 = 1%Z
    ∧ fs w' = fs w
    ∧ stdout w' = stdout w ++ ["Too many arguments were provided for workspace export."].
Proof.
  intros Hlen. rewrite export_start_usage by done. by eexists.
Qed.

(** X2.  Export only reads: whatever the arguments and whatever is in
    the store, the file system after it is the one before it; and the
    process ends with status 0 or 1. *)
Theorem export_never_writes args w :
  fs (export_start cfg args w).2 = fs w
  ∧ (exit_status (export_start cfg args w).1 = 0%Z
     ∨ exit_status (export_start cfg args w).1 = 1%Z).
Proof.
  destruct (decide (length args ≤ 1)%nat) as [Hlen|Hlen].
  - rewrite export_start_run by done.
    destruct (stat (fs w) (workspace_path_of cfg (export_raw cfg args)))
      as [[|[] [s|]]|]; simpl; auto.
  - rewrite export_start_usage by lia. simpl. auto.
Qed.

(** X3.  An export that returns normally had at most one argument and
    printed one line: the text of the workspace file when that file is
    a readable file holding text, the empty workspace of the resolved
    identifier otherwise. *)
Theorem export_normal_return args w w' :
  export_start cfg args w = (inr tt, w') →
  (length args ≤ 1)%nat
  ∧ ∃ line,
      w' = printed line w
      ∧ (stat (fs w) (workspace_path_of cfg (export_raw cfg args))
           = Some (File true (Text line))
         ∨ line = json_dumps (empty_workspace (export_raw cfg args))
           ∧ ∀ s, stat (fs w) (workspace_path_of cfg (export_raw cfg args))
                  ≠ Some (File true (Text s))).
Proof.
  destruct (decide (length args ≤ 1)%nat) as [Hlen|Hlen].
  - rewrite export_start_run by done. intros Hrun. split; [done|].
    destruct (stat (fs w) (workspace_path_of cfg (export_raw cfg args)))
      as [[|[] [s|]]|]; simplify_eq; eexists; (split; [done|]); eauto.
  - rewrite export_start_usage by lia. done.
Qed.

(** X4.  A directory at the path of the workspace file counts as
    existing, and [open] is outside the [try]: export ends with
    [IsADirectoryError] and prints nothing. *)
Theorem export_directory_in_the_way args w :
  (length args ≤ 1)%nat →
  stat (fs w) (workspace_path_of cfg (export_raw cfg args)) = Some Dir →
  export_start cfg args w = (inl (Raised IsADirectoryError), w).
Proof.
  intros Hlen Hs. by rewrite export_start_run, Hs.
Qed.

(** X5.  What export prints for a default workspace that is not in the
    store is a document the validator accepts, when [json.loads] reads
    back what [json.dumps] wrote. *)
Theorem exported_empty_workspace_validates w :
  stat (fs w) (workspace_path_of cfg (page_url cfg)) = None →
  json_loads (json_dumps (empty_workspace (page_url cfg)))
    = Some (empty_workspace (page_url cfg)) →
  ∃ line,
    export_start cfg [] w = (inr tt, printed line w)
    ∧ _validate {| fid_body := Text line |} (page_url cfg) (workspaces_url cfg)
      = inr (empty_workspace (page_url cfg)).
Proof.
  intros Hs Hrt. rewrite export_start_run by (simpl; lia). simpl export_raw.
  rewrite Hs. eexists. split; [done|].
  apply validate_accepted_iff. split.
  - unfold json_load. simpl. by rewrite Hrt.
  - eexists _, _, _, _. split; [reflexivity|]. eauto.
Qed.
End Exporting.

(** ** More about the validator *)

Section Shapes.
Context `{Externals}.

(** X12.  A document that parses to anything but a JSON object is
    rejected: with [TypeError] when it is a number, a boolean or null,
    and with [TypeError] or one of the two missing-field failures when
    it is a list or a string. *)
Theorem validate_rejects_non_objects fid pu wu v :
  json_load fid = inr v →
  (∀ members, v ≠ JObj members) →
  ∃ e,
    _validate fid pu wu = inl e
    ∧ (e = TypeError ∨ e = Exception data_missing ∨ e = Exception metadata_missing)
    ∧ match v with
      | JArr _ | JStr _ => True
      | _ => e = TypeError
      end.
Proof.
  intros Hload Hobj. unfold _validate. rewrite Hload. simpl.
  destruct v as [| | | | s | items | members]; simpl; try by eauto 6.
  - destruct (str_contains "data" s); simpl; [|by eauto 6].
    destruct (str_contains "metadata" s); simpl; by eauto 6.
  - destruct (existsb (is_str "data") items); simpl; [|by eauto 6].
    destruct (existsb (is_str "metadata") items); simpl; by eauto 6.
  - by destruct (Hobj members).
Qed.

(** X13.  A document whose [metadata] is not an object is rejected,
    with [TypeError] or with the missing-id failure. *)
Theorem validate_rejects_non_object_metadata fid pu wu members d m :
  json_load fid = inr (JObj members) →
  dict_get "data" members = Some d →
  dict_get "metadata" members = Some m →
  (∀ meta, m ≠ JObj meta) →
  _validate fid pu wu = inl TypeError
  ∨ _validate fid pu wu = inl (Exception id_missing).
Proof.
  intros Hload Hd Hm Hobj. unfold _validate. rewrite Hload. simpl.
  unfold dict_has. rewrite Hd, Hm. simpl.
  destruct m as [| | | | s | items | meta]; simpl; try by eauto.
  - destruct (str_contains "id" s); simpl; by eauto.
  - destruct (existsb (is_str "id") items); simpl; by eauto.
  - by destruct (Hobj meta).
Qed.

(** X14.  With an empty [workspaces_url] the identity check lets every
    string through: each document with [data] and a [metadata] object
    whose id is a string is accepted. *)
Theorem validate_empty_workspaces_url fid pu members d meta id :
  json_load fid = inr (JObj members) →
  dict_get "data" members = Some d →
  dict_get "metadata" members = Some (JObj meta) →
  dict_get "id" meta = Some (JStr id) →
  _validate fid pu "" = inr (JObj members).
Proof.
  intros Hload Hd Hm Hi. apply validate_accepted_iff. split; [done|].
  exists members, d, meta, id. repeat (split; [done|]). right. by destruct id.
Qed.
End Shapes.

(** ** More about import *)

Section Importing.
Context `{Externals} (cfg : config).

Lemma write_out_keeps workspace id w q n :
  q ≠ workspace_path_of cfg id →
  stat (fs w) q = Some n →
  stat (fs (write_out cfg workspace id w).2) q = Some n.
Proof.
  intros Hne Hq. unfold write_out.
  destruct (stat (fs w) (workspace_path_of cfg id)) as [[|r b]|]; simpl; [done| |].
  - by rewrite stat_insert_ne.
  - destruct (stat (fs w) (workspaces_dir cfg)) as [[|r b]|]; simpl; [|done..].
    by rewrite stat_insert_ne.
Qed.

Lemma store_workspace_keeps workspace id w q n :
  metadata_id workspace = inr (JStr id) →
  q ≠ workspace_path_of cfg id →
  stat (fs w) q = Some n →
  stat (fs (store_workspace cfg workspace w).2) q = Some n.
Proof.
  intros Hid Hne Hq. rewrite (store_workspace_run _ _ id) by done.
  destruct (stat (fs w) (workspaces_dir cfg)) as [d|] eqn:Hd.
  - by apply write_out_keeps.
  - pose proof (makedirs_rev_spec (rev (workspaces_dir cfg)) w) as Hspec.
    rewrite rev_involutive in Hspec. specialize (Hspec Hd). unfold os_makedirs.
    destruct (makedirs_rev (rev (workspaces_dir cfg)) w) as [[[status|e]|[]] w1].
    + by destruct Hspec as [-> _].
    + by destruct Hspec as [-> _].
    + destruct Hspec as (_ & _ & Hframe). apply write_out_keeps; [done|].
      destruct (Hframe q) as [-> | (Hnone & _)]; congruence.
Qed.

(** X6.  Whatever its arguments and however it ends, import removes
    nothing and changes nothing that exists, except a workspace file:
    every node at a path that is not the path of a workspace file is
    afterwards what it was. *)
Theorem import_keeps_the_rest args w q n :
  stat (fs w) q = Some n →
  (∀ id, q ≠ workspace_path_of cfg id) →
  stat (fs (import_start cfg args w).2) q = Some n.
Proof.
  intros Hq Hne. destruct (decide (length args = 1%nat)) as [Hlen|Hlen].
  - destruct args as [|f [|]]; try done. rewrite import_start_unfold.
    destruct (stat (fs w) (abspath f)) as [[|[] body]|]; try done.
    destruct (_validate _ _ _) as [e|doc] eqn:Hval; [done|].
    apply validate_accepted_iff in Hval as [_ Hacc].
    apply accepted_metadata_id in Hacc as (id & Hid & _).
    by apply (store_workspace_keeps _ id).
  - by rewrite import_start_usage.
Qed.

(** X7.  A source path that is a directory, or a file without read
    permission, passes the existence test and then fails in [open],
    outside the [try]: import ends with the exception, prints no
    message and changes nothing. *)
Theorem import_source_not_readable f w :
  (stat (fs w) (abspath f) = Some Dir →
   import_start cfg [f] w = (inl (Raised IsADirectoryError), w))
  ∧ (∀ body, stat (fs w) (abspath f) = Some (File false body) →
             import_start cfg [f] w = (inl (Raised PermissionError), w)).
Proof.
  split; [intros Hs | intros body Hs]; by rewrite import_start_unfold, Hs.
Qed.

(** X8.  After a successful validation the write is not guarded: when
    the workspaces directory of a file tree is a regular file import
    ends with [NotADirectoryError], and when the path of the workspace
    file is a directory it ends with [IsADirectoryError]; in both cases
    nothing is printed and nothing is written. *)
Theorem import_cannot_write f w body doc id :
  stat (fs w) (abspath f) = Some (File true body) →
  _validate {| fid_body := body |} (page_url cfg) (workspaces_url cfg) = inr doc →
  metadata_id doc = inr (JStr id) →
  (∀ r b, tree (fs w) →
          stat (fs w) (workspaces_dir cfg) = Some (File r b) →
          import_start cfg [f] w = (inl (Raised NotADirectoryError), w))
  ∧ (stat (fs w) (workspaces_dir cfg) ≠ None →
     stat (fs w) (workspace_path_of cfg id) = Some Dir →
     import_start cfg [f] w = (inl (Raised IsADirectoryError), w)).
Proof.
  intros Hsrc Hval Hid.
  rewrite import_start_unfold, Hsrc, Hval, (store_workspace_run _ _ id) by done.
  split.
  - intros r b Htree Hd. rewrite Hd. unfold write_out. rewrite Hd.
    destruct (stat (fs w) (workspace_path_of cfg id)) as [n|] eqn:Hp; [|done].
    rewrite stat_workspace_path in Hp. apply Htree in Hp.
    rewrite workspace_path_of_snoc, parent_snoc in Hp. congruence.
  - intros Hd Hp. destruct (stat (fs w) (workspaces_dir cfg)); [|done].
    unfold write_out. by rewrite Hp.
Qed.

(** X9.  An import that returns normally was given one argument, the
    path of a readable file holding a document the validator accepts;
    the store then holds the serialization of that document at the path
    of its id, the workspaces directory exists, and the one line printed
    names that path. *)
Theorem import_normal_return args w w' :
  import_start cfg args w = (inr tt, w') →
  ∃ f body doc id r,
    args = [f]
    ∧ stat (fs w) (abspath f) = Some (File true body)
    ∧ _validate {| fid_body := body |} (page_url cfg) (workspaces_url cfg) = inr doc
    ∧ metadata_id doc = inr (JStr id)
    ∧ fs w' !! workspace_path_of cfg id = Some (File r (Text (json_dumps doc)))
    ∧ stat (fs w') (workspaces_dir cfg) ≠ None
    ∧ stdout w'
      = stdout w ++ ["Saved workspace: " +:+ path_str (workspace_path_of cfg id)].
Proof.
  intros Hrun. destruct (decide (length args = 1%nat)) as [Hlen|Hlen].
  - destruct args as [|f [|]]; try done. pose proof Hrun as Hrun'.
    rewrite import_start_unfold in Hrun'.
    destruct (stat (fs w) (abspath f)) as [[|[] body]|] eqn:Hsrc; try done.
    destruct (_validate _ _ _) as [e|doc] eqn:Hval; [done|]. clear Hrun'.
    destruct (import_start_ok cfg f w w' body doc Hsrc Hval Hrun)
      as (id & w1 & Hid & -> & Hout & Hdir & _).
    eexists f, body, doc, id, _. repeat (split; [done|]). split; [|split].
    + simpl. by rewrite lookup_insert_eq.
    + simpl. rewrite stat_insert_ne; [done|]. apply workspace_path_ne_dir.
    + simpl. by rewrite Hout.
  - by rewrite import_start_usage in Hrun.
Qed.

(** X10.  After the import of a document whose id is the join of
    [workspaces_url] and a name, the export of that name prints the
    serialization of the document, which reads back as the document. *)
Theorem import_export_named_round_trip f name w w1 body doc :
  stat (fs w) (abspath f) = Some (File true body) →
  _validate {| fid_body := body |} (page_url cfg) (workspaces_url cfg) = inr doc →
  metadata_id doc = inr (JStr (ujoin (workspaces_url cfg) name)) →
  readable_at (fs w) (workspace_path_of cfg (ujoin (workspaces_url cfg) name)) = true →
  json_loads (json_dumps doc) = Some doc →
  import_start cfg [f] w = (inr tt, w1) →
  export_start cfg [name] w1 = (inr tt, printed (json_dumps doc) w1)
  ∧ json_loads (json_dumps doc) = Some doc.
Proof.
  intros Hsrc Hval Hid Hread Hrt Himp.
  destruct (import_start_ok cfg f w w1 body doc Hsrc Hval Himp)
    as (id & w0 & Hid' & -> & _).
  rewrite Hid in Hid'. injection Hid' as <-. rewrite Hread. split; [|done].
  rewrite export_start_run by (simpl; lia). simpl export_raw.
  rewrite stat_workspace_path. simpl. by rewrite lookup_insert_eq.
Qed.

(** X11.  Imports of documents whose workspace files differ do not
    disturb each other: after a second completed import the file the
    first one wrote is still there with the same contents. *)
Theorem imports_do_not_interfere f1 f2 w0 w1 w2 b1 b2 d1 d2 id1 id2 :
  stat (fs w0) (abspath f1) = Some (File true b1) →
  _validate {| fid_body := b1 |} (page_url cfg) (workspaces_url cfg) = inr d1 →
  metadata_id d1 = inr (JStr id1) →
  import_start cfg [f1] w0 = (inr tt, w1) →
  stat (fs w1) (abspath f2) = Some (File true b2) →
  _validate {| fid_body := b2 |} (page_url cfg) (workspaces_url cfg) = inr d2 →
  metadata_id d2 = inr (JStr id2) →
  import_start cfg [f2] w1 = (inr tt, w2) →
  workspace_path_of cfg id1 ≠ workspace_path_of cfg id2 →
  ∃ r,
    fs w2 !! workspace_path_of cfg id1 = Some (File r (Text (json_dumps d1)))
    ∧ fs w2 !! workspace_path_of cfg id2
      = Some (File (readable_at (fs w1) (workspace_path_of cfg id2))
                (Text (json_dumps d2))).
Proof.
  intros Hs1 Hv1 Hi1 Him1 Hs2 Hv2 Hi2 Him2 Hne.
  destruct (import_start_ok cfg f1 w0 w1 b1 d1 Hs1 Hv1 Him1)
    as (id & wa & Hid & -> & _).
  rewrite Hi1 in Hid. injection Hid as <-.
  destruct (import_start_ok cfg f2 _ w2 b2 d2 Hs2 Hv2 Him2)
    as (id & wb & Hid & -> & _ & _ & Hframe).
  rewrite Hi2 in Hid. injection Hid as <-.
  eexists. split.
  - simpl. rewrite lookup_insert_ne by done.
    rewrite <- stat_workspace_path.
    destruct (Hframe (workspace_path_of cfg id1)) as [-> | (Hnone & _)].
    + rewrite stat_workspace_path. simpl. by rewrite lookup_insert_eq.
    + rewrite stat_workspace_path in Hnone. simpl in Hnone.
      by rewrite lookup_insert_eq in Hnone.
  - simpl. by rewrite lookup_insert_eq.
Qed.
End Importing.

(** ** The page configuration and the version string *)

Section Settings.
Import Demo.

Lemma dict_get_set_eq k v members : dict_get k (dict_set k v members) = Some v.
Proof.
  induction members as [|[k' v'] rest IH]; simpl.
  - by rewrite String.eqb_refl.
  - destruct (String.eqb k k') eqn:Hk; simpl; [by rewrite String.eqb_refl|].
    by rewrite Hk.
Qed.

Lemma dict_get_set_ne k k' v members :
  k ≠ k' → dict_get k' (dict_set k v members) = dict_get k' members.
Proof.
  intros Hne. induction members as [|[k'' v''] rest IH]; simpl.
  - by destruct (String.eqb_spec k' k) as [->|_].
  - destruct (String.eqb_spec k k'') as [<-|Hk]; simpl.
    + by destruct (String.eqb_spec k' k) as [->|_].
    + by rewrite IH.
Qed.

Lemma dict_set_twice k v1 v2 members :
  dict_set k v2 (dict_set k v1 members) = dict_set k v2 members.
Proof.
  induction members as [|[k' v'] rest IH]; simpl.
  - by rewrite String.eqb_refl.
  - destruct (String.eqb k k') eqn:Hk; simpl.
    + by rewrite String.eqb_refl.
    + by rewrite Hk, IH.
Qed.

Lemma dict_get_set_missing k v members :
  dict_get k members = None → dict_set k v members = members ++ [(k, v)].
Proof.
  induction members as [|[k' v'] rest IH]; simpl; [done|].
  destruct (String.eqb k k'); [done|]. intros Hk. by rewrite IH.
Qed.

(** What [init_webapp] does, by the state of the page configuration. *)
Lemma init_webapp_run quit_button settings :
  LabApp.init_webapp quit_button settings =
    match dict_get "page_config_data" settings with
    | None =>
        inr (dict_set "page_config_data"
               (JObj [("quit_button", default (JBool false) quit_button)]) settings)
    | Some (JObj page) =>
        inr (dict_set "page_config_data"
               (JObj (dict_set "quit_button" (default (JBool false) quit_button) page))
               settings)
    | Some _ => inl TypeError
    end.
Proof.
  unfold LabApp.init_webapp, dict_has.
  destruct (dict_get "page_config_data" settings) as [v|] eqn:Hp; simpl.
  - rewrite Hp. simpl. by destruct v.
  - rewrite dict_get_set_eq. simpl. by rewrite dict_set_twice.
Qed.

(** X15.  When the settings have no page configuration, or have one
    that is a dict, [init_webapp] completes, and afterwards the page
    configuration is a dict whose [quit_button] is the attribute of the
    application, or [False] when the application has none. *)
Theorem init_webapp_sets_quit_button quit_button settings :
  dict_get "page_config_data" settings = None
  ∨ (∃ page, dict_get "page_config_data" settings = Some (JObj page)) →
  ∃ settings' page',
    LabApp.init_webapp quit_button settings = inr settings'
    ∧ dict_get "page_config_data" settings' = Some (JObj page')
    ∧ dict_get "quit_button" page'
      = Some match quit_button with
             | Some v => v
             | None => JBool false
             end.
Proof.
  rewrite init_webapp_run. intros [Hp | [page Hp]]; rewrite Hp.
  - eexists _, _. split; [done|]. rewrite dict_get_set_eq. split; [done|].
    simpl. by destruct quit_button.
  - eexists _, _. split; [done|]. rewrite dict_get_set_eq. split; [done|].
    rewrite dict_get_set_eq. by destruct quit_button.
Qed.

(** X16.  [init_webapp] touches one entry of one dict: every other
    setting keeps its value, and every other entry of an existing page
    configuration keeps its value. *)
Theorem init_webapp_keeps_other_entries quit_button settings settings' :
  LabApp.init_webapp quit_button settings = inr settings' →
  (∀ k, k ≠ "page_config_data" → dict_get k settings' = dict_get k settings)
  ∧ (∀ page key,
       dict_get "page_config_data" settings = Some (JObj page) →
       key ≠ "quit_button" →
       ∃ page',
         dict_get "page_config_data" settings' = Some (JObj page')
         ∧ dict_get key page' = dict_get key page).
Proof.
  rewrite init_webapp_run. intros Hrun. split.
  - intros k Hk.
    destruct (dict_get "page_config_data" settings) as [[]|]; simplify_eq;
      by rewrite dict_get_set_ne.
  - intros page key Hp Hkey. rewrite Hp in Hrun. simplify_eq.
    eexists. split; [apply dict_get_set_eq|]. by rewrite dict_get_set_ne.
Qed.

(** X17.  [init_webapp] is idempotent: run on the settings it produced,
    it completes and gives the same settings, in the same order. *)
Theorem init_webapp_idempotent quit_button settings settings' :
  LabApp.init_webapp quit_button settings = inr settings' →
  LabApp.init_webapp quit_button settings' = inr settings'.
Proof.
  rewrite !init_webapp_run. intros Hrun.
  destruct (dict_get "page_config_data" settings) as [[]|]; simplify_eq;
    rewrite dict_get_set_eq, dict_set_twice; simpl; try rewrite String.eqb_refl;
    by rewrite ?dict_set_twice.
Qed.

(** X18.  A page configuration that is there but is not a dict makes
    [init_webapp] fail with [TypeError]; settings without one get a new
    page configuration, placed last, that holds the quit button only. *)
Theorem init_webapp_page_config_edge quit_button settings :
  (∀ v, dict_get "page_config_data" settings = Some v →
        (∀ page, v ≠ JObj page) →
        LabApp.init_webapp quit_button settings = inl TypeError)
  ∧ (dict_get "page_config_data" settings = None →
     LabApp.init_webapp quit_button settings
     = inr (settings
            ++ [("page_config_data",
                 JObj [("quit_button", default (JBool false) quit_button)])])).
Proof.
  rewrite init_webapp_run. split.
  - intros v Hp Hobj. rewrite Hp. destruct v; try done. by destruct (Hobj members).
  - intros Hp. rewrite Hp. by rewrite dict_get_set_missing.
Qed.

Lemma prefix_append s t : String.prefix s (s +:+ t) = true.
Proof.
  induction s as [|c s IH]; simpl; [by destruct t|].
  destruct (Ascii.ascii_dec c c); [done|congruence].
Qed.

Lemma prefix_refl s : String.prefix s s = true.
Proof.
  induction s as [|c s IH]; simpl; [done|].
  destruct (Ascii.ascii_dec c c); [done|congruence].
Qed.

Lemma length_append s t :
  String.length (s +:+ t) = (String.length s + String.length t)%nat.
Proof. induction s as [|c s IH]; simpl; [done|]. by rewrite IH. Qed.

(** X19.  The version string is the package version exactly when the
    application reports the same version; in every case it starts with
    the package version. *)
Theorem version_agrees __version__ app_version :
  (version __version__ app_version = __version__ ↔ __version__ = app_version)
  ∧ String.prefix __version__ (version __version__ app_version) = true.
Proof.
  unfold version. destruct (String.eqb_spec __version__ app_version) as [->|Hne]; simpl.
  - split; [done|]. apply prefix_refl.
  - split; [|apply prefix_append]. split; [|done]. intros Heq.
    apply (f_equal String.length) in Heq.
    rewrite !length_append in Heq. simpl in Heq. lia.
Qed.
End Settings.

(** ** Importing what the store holds *)

Section Reimport.
Context `{Externals} (cfg : config).

(** X20.  A workspace file written by import is itself a valid source:
    when [json.loads] reads back what [json.dumps] wrote and the file is
    readable, importing the stored file completes and leaves the file
    system exactly as it was. *)
Theorem stored_file_is_importable f g w w1 body doc id :
  stat (fs w) (abspath f) = Some (File true body) →
  _validate {| fid_body := body |} (page_url cfg) (workspaces_url cfg) = inr doc →
  metadata_id doc = inr (JStr id) →
  import_start cfg [f] w = (inr tt, w1) →
  abspath g = workspace_path_of cfg id →
  readable_at (fs w) (workspace_path_of cfg id) = true →
  json_loads (json_dumps doc) = Some doc →
  ∃ w2, import_start cfg [g] w1 = (inr tt, w2) ∧ fs w2 = fs w1.
Proof.
  intros Hsrc Hval Hid Himp Hg Hread Hrt.
  destruct (import_start_ok cfg f w w1 body doc Hsrc Hval Himp)
    as (id' & w0 & Hid' & -> & _ & Hdir & _).
  rewrite Hid in Hid'. injection Hid' as <-. rewrite Hread.
  assert (_validate {| fid_body := Text (json_dumps doc) |}
            (page_url cfg) (workspaces_url cfg) = inr doc) as Hval'.
  { apply validate_accepted_iff. split.
    - unfold json_load. simpl. by rewrite Hrt.
    - by apply validate_accepted_iff in Hval as [_ ?]. }
  rewrite import_start_unfold, Hg, stat_workspace_path. simpl.
  rewrite lookup_insert_eq, Hval', (store_workspace_run _ _ id) by done. simpl.
  rewrite stat_insert_ne by apply workspace_path_ne_dir.
  destruct (stat (fs w0) (workspaces_dir cfg)); [|done].
  unfold write_out. rewrite stat_workspace_path. simpl. rewrite lookup_insert_eq.
  eexists. split; [done|]. simpl. by rewrite insert_insert_eq.
Qed.
End Reimport.

(** ** These properties at work on concrete inputs *)

Section MoreInstances.
Import Demo Samples.
#[local] Existing Instance Demo.externals.

Lemma export_too_many_arguments_witness :
  ∃ w',
    export_start lab ["foo"; "bar"] settled = (inl (SysExit 1), w')
    ∧ exit_status (export_start lab ["foo"; "bar"] settled).1 = 1%Z
    ∧ fs w' = fs settled
    ∧ stdout w'
      = stdout settled ++ ["Too many arguments were provided for workspace export."].
Proof. apply (export_too_many_arguments lab). simpl. lia. Defined.

Lemma export_normal_return_witness :
  (length (@nil string) ≤ 1)%nat
  ∧ ∃ line,
      printed "not json" corrupt = printed line corrupt
      ∧ (stat (fs corrupt) (workspace_path_of lab (export_raw lab []))
           = Some (File true (Text line))
         ∨ line = json_dumps (empty_workspace (export_raw lab []))
           ∧ ∀ s, stat (fs corrupt) (workspace_path_of lab (export_raw lab []))
                  ≠ Some (File true (Text s))).
Proof.
  apply (export_normal_return lab [] corrupt (printed "not json" corrupt)).
  vm_compute. reflexivity.
Defined.

Lemma export_directory_in_the_way_witness :
  export_start lab [] nested = (inl (Raised IsADirectoryError), nested).
Proof.
  apply (export_directory_in_the_way lab); [simpl; lia | vm_compute; reflexivity].
Defined.

Lemma exported_empty_workspace_validates_witness :
  ∃ line,
    export_start lab [] fresh = (inr tt, printed line fresh)
    ∧ _validate {| fid_body := Text line |} (page_url lab) (workspaces_url lab)
      = inr (empty_workspace (page_url lab)).
Proof.
  apply (exported_empty_workspace_validates lab fresh); vm_compute; reflexivity.
Defined.

Lemma import_keeps_the_rest_witness :
  stat (fs (import_start lab ["/tmp/root.json"] settled).2) ["tmp"; "later.json"]
  = Some (File true (Text later_text)).
Proof.
  apply (import_keeps_the_rest lab ["/tmp/root.json"] settled).
  - vm_compute. reflexivity.
  - intros id. unfold workspace_path_of, os_path_join. simpl. discriminate.
Defined.

Lemma import_source_not_readable_witness :
  import_start lab ["/tmp/dir.json"] folder = (inl (Raised IsADirectoryError), folder)
  ∧ import_start lab ["/tmp/secret.json"] folder
    = (inl (Raised PermissionError), folder).
Proof.
  split.
  - apply (proj1 (import_source_not_readable lab "/tmp/dir.json" folder)).
    vm_compute. reflexivity.
  - apply (proj2 (import_source_not_readable lab "/tmp/secret.json" folder)
             (Text root_text)).
    vm_compute. reflexivity.
Defined.

Lemma filed_is_a_tree : tree (fs filed).
Proof. apply (bool_decide_unpack (tree (fs filed))). vm_compute. exact I. Qed.

Lemma import_cannot_write_witness :
  import_start lab ["/tmp/root.json"] filed = (inl (Raised NotADirectoryError), filed)
  ∧ import_start lab ["/tmp/root.json"] nested
    = (inl (Raised IsADirectoryError), nested).
Proof.
  split.
  - destruct (import_cannot_write lab "/tmp/root.json" filed
                (Text root_text) root_doc "/lab") as [Hfile _];
      [vm_compute; reflexivity ..|].
    apply (Hfile true (Text "") filed_is_a_tree). vm_compute. reflexivity.
  - destruct (import_cannot_write lab "/tmp/root.json" nested
                (Text root_text) root_doc "/lab") as [_ Hdir];
      [vm_compute; reflexivity ..|].
    apply Hdir; [vm_compute; discriminate | vm_compute; reflexivity].
Defined.

Lemma import_normal_return_witness :
  ∃ f body doc id r,
    ["/tmp/root.json"] = [f]
    ∧ stat (fs settled) (abspath f) = Some (File true body)
    ∧ _validate {| fid_body := body |} (page_url lab) (workspaces_url lab) = inr doc
    ∧ metadata_id doc = inr (JStr id)
    ∧ fs (import_start lab ["/tmp/root.json"] settled).2 !! workspace_path_of lab id
      = Some (File r (Text (json_dumps doc)))
    ∧ stat (fs (import_start lab ["/tmp/root.json"] settled).2) (workspaces_dir lab)
      ≠ None
    ∧ stdout (import_start lab ["/tmp/root.json"] settled).2
      = stdout settled ++ ["Saved workspace: " +:+ path_str (workspace_path_of lab id)].
Proof.
  apply (import_normal_return lab ["/tmp/root.json"] settled).
  vm_compute. reflexivity.
Defined.

Lemma import_export_named_round_trip_witness :
  export_start lab ["foo"] (import_start lab ["/tmp/foo.json"] desk).2
  = (inr tt, printed (json_dumps foo_doc) (import_start lab ["/tmp/foo.json"] desk).2)
  ∧ json_loads (json_dumps foo_doc) = Some foo_doc.
Proof.
  apply (import_export_named_round_trip lab "/tmp/foo.json" "foo" desk _
           (Text foo_text));
    vm_compute; reflexivity.
Defined.

Lemma imports_do_not_interfere_witness :
  ∃ r,
    fs (import_start lab ["/tmp/foo.json"]
          (import_start lab ["/tmp/root.json"] desk).2).2
      !! workspace_path_of lab "/lab"
    = Some (File r (Text (json_dumps root_doc)))
    ∧ fs (import_start lab ["/tmp/foo.json"]
            (import_start lab ["/tmp/root.json"] desk).2).2
        !! workspace_path_of lab "/lab/workspaces/foo"
      = Some (File (readable_at (fs (import_start lab ["/tmp/root.json"] desk).2)
                      (workspace_path_of lab "/lab/workspaces/foo"))
                (Text (json_dumps foo_doc))).
Proof.
  apply (imports_do_not_interfere lab "/tmp/root.json" "/tmp/foo.json" desk
           (import_start lab ["/tmp/root.json"] desk).2
           (import_start lab ["/tmp/foo.json"]
              (import_start lab ["/tmp/root.json"] desk).2).2
           (Text root_text) (Text foo_text) root_doc foo_doc);
    try (vm_compute; reflexivity).
  vm_compute. discriminate.
Defined.

Lemma validate_rejects_non_objects_witness :
  ∃ e,
    _validate {| fid_body := Text list_text |} "/lab" "/lab/workspaces" = inl e
    ∧ (e = TypeError ∨ e = Exception data_missing ∨ e = Exception metadata_missing)
    ∧ True.
Proof.
  apply (validate_rejects_non_objects {| fid_body := Text list_text |}
           "/lab" "/lab/workspaces" (JArr [JStr "data"; JStr "metadata"])).
  - vm_compute. reflexivity.
  - discriminate.
Defined.

Lemma validate_rejects_non_object_metadata_witness :
  _validate {| fid_body := Text text_metadata |} "/lab" "/lab/workspaces"
    = inl TypeError
  ∨ _validate {| fid_body := Text text_metadata |} "/lab" "/lab/workspaces"
    = inl (Exception id_missing).
Proof.
  apply (validate_rejects_non_object_metadata {| fid_body := Text text_metadata |}
           "/lab" "/lab/workspaces"
           [("data", JObj []); ("metadata", JStr "no id here")]
           (JObj []) (JStr "no id here"));
    try (vm_compute; reflexivity).
  discriminate.
Defined.

Lemma validate_empty_workspaces_url_witness :
  _validate {| fid_body := Text stray_text |} "/lab" ""
  = inr (JObj [("data", JObj []); ("metadata", JObj [("id", JStr "/elsewhere")])]).
Proof.
  apply (validate_empty_workspaces_url {| fid_body := Text stray_text |} "/lab"
           _ (JObj []) [("id", JStr "/elsewhere")] "/elsewhere");
    vm_compute; reflexivity.
Defined.

Lemma init_webapp_sets_quit_button_witness :
  ∃ settings' page',
    LabApp.init_webapp None tornado_settings = inr settings'
    ∧ dict_get "page_config_data" settings' = Some (JObj page')
    ∧ dict_get "quit_button" page' = Some (JBool false).
Proof.
  apply (init_webapp_sets_quit_button None tornado_settings).
  right. eexists. vm_compute. reflexivity.
Defined.

Lemma init_webapp_keeps_other_entries_witness :
  dict_get "xsrf_cookies"
    [("base_url", JStr "/");
     ("page_config_data", JObj [("token", JStr "abc"); ("quit_button", JBool false)]);
     ("xsrf_cookies", JBool true)]
  = dict_get "xsrf_cookies" tornado_settings
  ∧ ∃ page',
      dict_get "page_config_data"
        [("base_url", JStr "/");
         ("page_config_data", JObj [("token", JStr "abc"); ("quit_button", JBool false)]);
         ("xsrf_cookies", JBool true)]
      = Some (JObj page')
      ∧ dict_get "token" page'
        = dict_get "token" [("token", JStr "abc"); ("quit_button", JBool true)].
Proof.
  destruct (init_webapp_keeps_other_entries None tornado_settings
              [("base_url", JStr "/");
               ("page_config_data",
                JObj [("token", JStr "abc"); ("quit_button", JBool false)]);
               ("xsrf_cookies", JBool true)]) as [Hrest Hpage].
  { vm_compute. reflexivity. }
  split.
  - apply Hrest. discriminate.
  - apply Hpage; [vm_compute; reflexivity | discriminate].
Defined.

Lemma init_webapp_idempotent_witness :
  LabApp.init_webapp (Some (JBool true)) tornado_settings = inr tornado_settings.
Proof.
  apply (init_webapp_idempotent (Some (JBool true)) tornado_settings).
  vm_compute. reflexivity.
Defined.

Lemma init_webapp_page_config_edge_witness :
  LabApp.init_webapp None [("page_config_data", JArr [])] = inl TypeError
  ∧ LabApp.init_webapp None [("base_url", JStr "/")]
    = inr [("base_url", JStr "/");
           ("page_config_data", JObj [("quit_button", JBool false)])].
Proof.
  split.
  - apply (proj1 (init_webapp_page_config_edge None [("page_config_data", JArr [])])
             (JArr [])); [vm_compute; reflexivity | discriminate].
  - apply (proj2 (init_webapp_page_config_edge None [("base_url", JStr "/")])).
    vm_compute. reflexivity.
Defined.

Lemma stored_file_is_importable_witness :
  ∃ w2,
    import_start lab ["/home/lab/workspaces/lab.jupyterlab-workspace"]
      (import_start lab ["/tmp/root.json"] settled).2 = (inr tt, w2)
    ∧ fs w2 = fs (import_start lab ["/tmp/root.json"] settled).2.
Proof.
  apply (stored_file_is_importable lab "/tmp/root.json"
           "/home/lab/workspaces/lab.jupyterlab-workspace" settled
           (import_start lab ["/tmp/root.json"] settled).2
           (Text root_text) root_doc "/lab");
    vm_compute; reflexivity.
Defined.
End MoreInstances.
